(** * The vLLM completion handler of litellm, embedded and verified

    Source: [litellm/llms/vllm/completion/handler.py].

    The handler is glue between three collaborators that are not part of
    the file: the [vllm] package (the [LLM] engine class with its
    [generate] method, and the [SamplingParams] class), the prompt
    templates of litellm ([custom_prompt], [prompt_factory]) and the
    logging object handed in by the caller.  The embedding keeps them
    abstract: an environment record gives, for every external call, its
    outcome (a value or a raised exception) and its effect on an opaque
    world.  Everything the handler itself does is written out:

    - the module global [llm];
    - Python dictionaries as objects in a store, addressed by reference,
      so that "a fresh dict" and "the caller's dict" are different things;
    - the response objects ([ModelResponse]) as objects in a second store,
      mutated in place;
    - exceptions and [try]/[except] as an error monad over that state;
    - a trace of the external calls made, in order. *)

From Stdlib Require Import ZArith String SpecFloat.
From stdpp Require Import gmap strings list fin_maps.

Set Warnings "-register-all".
Local Open Scope string_scope.
Local Open Scope list_scope.

(** ** Python values *)

(** The values that travel through option dictionaries, templates and
    messages.  The handler never inspects them, except for the identity
    test [is True] on the value of ["stream"]. *)
Inductive PyVal : Type :=
| VNone
| VBool (b : bool)
| VInt (n : Z)
| VFloat (x : spec_float)
| VStr (s : string)
| VList (items : list PyVal)
| VDict (items : list (string * PyVal)).

(** A [dict] with string keys (they are unpacked as keyword arguments). *)
Abbreviation Dict := (gmap string PyVal).

(** References into the two object stores. *)
Abbreviation dict_ref := nat (only parsing).
Abbreviation resp_ref := nat (only parsing).

(** ** Exceptions *)

(** Instances of Python's [Exception].  [VLLMError] is the class the
    handler defines (its placeholder httpx request and response carry no
    information beyond [status_code]); every other exception is kept as
    its class name and the text [str(e)] gives. *)
Inductive PyExc : Type :=
| Exc (cls : string) (text : string)
| VLLMError (status_code : Z) (message : string).

(** [str(e)].  [VLLMError.__init__] hands [self.message] to the base
    class constructor, so [str] of a [VLLMError] is its message. *)
Definition py_str (e : PyExc) : string :=
  match e with
  | Exc _ text => text
  | VLLMError _ message => message
  end.

Definition IndexError : PyExc := Exc "IndexError" "list index out of range".

(** [str(KeyError(k))] is the repr of the key. *)
Definition KeyError (k : string) : PyExc := Exc "KeyError" ("'" +:+ k +:+ "'").

Inductive Outcome (A : Type) : Type :=
| Returns (a : A)
| Raises (e : PyExc).
Arguments Returns {A} a.
Arguments Raises {A} e.

(** ** Objects of the collaborators *)

(** An instance of [vllm.LLM], known by its identity only. *)
Inductive Engine : Type := EngineObj (id : nat).

(** An instance of [vllm.SamplingParams], known by the keyword arguments
    it was built from. *)
Inductive SamplingParamsObj : Type := SamplingParamsOf (kwargs : Dict).

(** [vllm.CompletionOutput] and [vllm.RequestOutput], the fields read. *)
Record CompletionOutput : Type := mkCompletionOutput {
  text : string;
  token_ids : list Z }.

Record RequestOutput : Type := mkRequestOutput {
  prompt_token_ids : list Z;
  outputs : list CompletionOutput }.

(** First argument of [generate]: one prompt or a list of prompts. *)
Inductive Prompts : Type :=
| OnePrompt (prompt : string)
| ManyPrompts (prompts : list string).

(** ** The response object *)

(** Modelled from the spec: [Usage] and [ModelResponse] come from
    [litellm.utils], which is not part of the source at hand.  The
    response object has a choice list whose first entry's message content
    receives the generated text, a creation timestamp, the model
    identifier and a usage record of three counts. *)
Record Usage : Type := mkUsage {
  prompt_tokens : Z;
  completion_tokens : Z;
  total_tokens : Z }.

Record Message : Type := mkMessage { content : option string }.

Record Choices : Type := mkChoices { message : Message }.

Record ModelResponse : Type := mkModelResponse {
  choices : list Choices;
  created : option Z;
  mr_model : option string;
  usage : option Usage }.

(** Modelled from the spec: what [ModelResponse()] builds, a response
    object with one choice and nothing filled in yet. *)
Definition ModelResponse_new : ModelResponse :=
  {| choices := [ {| message := {| content := None |} |} ];
     created := None;
     mr_model := None;
     usage := None |}.

(** ** External calls, observed *)

Inductive Event : Type :=
| EvImport
| EvLLM (model : string) (params : Dict)
| EvSamplingParams (kwargs : Dict)
| EvCustomPrompt (role_dict initial_prompt_value final_prompt_value : PyVal)
                 (messages : list PyVal)
| EvPromptFactory (model : string) (messages : list PyVal)
| EvPreCall (input api_key : string) (complete_input_dict : SamplingParamsObj)
| EvGenerate (engine : Engine) (prompts : Prompts)
             (sampling_params : SamplingParamsObj)
| EvPostCall (input api_key : string) (original_response : list RequestOutput)
             (complete_input_dict : SamplingParamsObj)
| EvPrintVerbose (raw_model_response : list RequestOutput)
| EvTime.

Definition is_log_event (ev : Event) : bool :=
  match ev with
  | EvPreCall _ _ _ | EvPostCall _ _ _ _ => true
  | _ => false
  end.

Definition is_prompt_event (ev : Event) : bool :=
  match ev with
  | EvCustomPrompt _ _ _ _ | EvPromptFactory _ _ => true
  | _ => false
  end.

Definition is_generate_event (ev : Event) : bool :=
  match ev with
  | EvGenerate _ _ _ => true
  | _ => false
  end.

Definition is_LLM_event (ev : Event) : bool :=
  match ev with
  | EvLLM _ _ => true
  | _ => false
  end.

(** ** The iterator [iter(outputs)] returns *)

Record ListIterator : Type := mkListIterator {
  it_seq : list RequestOutput;
  it_index : nat }.

Definition py_iter (l : list RequestOutput) : ListIterator :=
  {| it_seq := l; it_index := 0 |}.

(** [next(it)]: [None] stands for [StopIteration]. *)
Definition py_next (it : ListIterator) : option RequestOutput * ListIterator :=
  match it_seq it !! it_index it with
  | Some x => (Some x, {| it_seq := it_seq it; it_index := S (it_index it) |})
  | None => (None, it)
  end.

(** Consume the iterator, at most [fuel] items. *)
Fixpoint drain (fuel : nat) (it : ListIterator) : list RequestOutput * ListIterator :=
  match fuel with
  | 0 => ([], it)
  | S fuel' =>
      match py_next it with
      | (Some x, it') => let '(xs, it'') := drain fuel' it' in (x :: xs, it'')
      | (None, it') => ([], it')
      end
  end.

(** What [completion] hands back. *)
Inductive CompletionResult : Type :=
| RetIterator (it : ListIterator)
| RetResponse (model_response : resp_ref).

(** ** The whitelist: pure content of lines 35-50 *)

(** The binary64 number the literal [0.9] denotes: 0x1.ccccccccccccdp-1. *)
Definition float_0_9 : spec_float := S754_finite false 8106479329266893 (-53).

Definition default_params : Dict :=
  list_to_map
    [ ("tokenizer", VNone);
      ("tokenizer_mode", VStr "auto");
      ("skip_tokenizer_init", VBool false);
      ("trust_remote_code", VBool false);
      ("dtype", VStr "auto");
      ("quantization", VNone);
      ("gpu_memory_utilization", VFloat float_0_9);
      ("load_format", VStr "auto") ].

(** [k in d]. *)
Definition py_in (k : string) (d : Dict) : Prop := is_Some (d !! k).

(** [{k: v for k, v in d.items() if k in w}] *)
Definition dict_keep (w d : Dict) : Dict :=
  filter (λ kv, py_in kv.1 w) d.

(** [{k: v for k, v in d.items() if k not in w}] *)
Definition dict_drop (w d : Dict) : Dict :=
  filter (λ kv, ¬ py_in kv.1 w) d.

(** [{**a, **b}]: the entries of [b] win. *)
Definition dict_merge (a b : Dict) : Dict := b ∪ a.

(** [d[k]] *)
Definition py_getitem (d : Dict) (k : string) : Outcome PyVal :=
  match d !! k with
  | Some v => Returns v
  | None => Raises (KeyError k)
  end.

(** [v is True] *)
Definition py_is_True (v : PyVal) : bool :=
  match v with
  | VBool true => true
  | _ => false
  end.

(** ["stream" in d and d["stream"] is True] *)
Definition stream_requested (d : Dict) : bool :=
  match d !! "stream" with
  | Some v => py_is_True v
  | None => false
  end.

(** [l[0]] *)
Definition py_first {A : Type} (l : list A) : Outcome A :=
  match l with
  | x :: _ => Returns x
  | [] => Raises IndexError
  end.

(** [len(l)] *)
Definition py_len {A : Type} (l : list A) : Z := Z.of_nat (length l).

(** ** State, environment and the monad of handler code *)

Section Handler.

(** Whatever the collaborators keep between calls: engine internals, the
    clock, the random source of sampling. *)
Context {W : Type}.

Record State : Type := mkState {
  llm : option Engine;            (* the module global [llm] *)
  dicts : list Dict;              (* dict objects, by reference *)
  responses : list ModelResponse; (* response objects, by reference *)
  world : W;
  trace : list Event }.

Definition M (A : Type) : Type := State → Outcome A * State.

Definition ret {A : Type} (a : A) : M A := λ st, (Returns a, st).

Definition raise {A : Type} (e : PyExc) : M A := λ st, (Raises e, st).

Definition bind {A B : Type} (m : M A) (k : A → M B) : M B :=
  λ st,
    match m st with
    | (Returns a, st') => k a st'
    | (Raises e, st') => (Raises e, st')
    end.

(** [try: m  except Exception as e: h e] *)
Definition try_except {A : Type} (m : M A) (h : PyExc → M A) : M A :=
  λ st,
    match m st with
    | (Returns a, st') => (Returns a, st')
    | (Raises e, st') => h e st'
    end.

(** A pure expression that may raise. *)
Definition eval {A : Type} (o : Outcome A) : M A := λ st, (o, st).

Notation "x <- m ;; k" := (bind m (λ x, k))
  (at level 90, m at level 60, right associativity).
Notation "m ;;; k" := (bind m (λ _, k))
  (at level 90, right associativity).

(** [for x in xs: acc = body acc x] *)
Fixpoint for_each {A S : Type} (body : S → A → M S) (xs : list A) (acc : S) : M S :=
  match xs with
  | [] => ret acc
  | x :: xs' => acc' <- body acc x ;; for_each body xs' acc'
  end.

(** *** Store operations *)

Definition log (ev : Event) (st : State) : State :=
  {| llm := llm st; dicts := dicts st; responses := responses st;
     world := world st; trace := trace st ++ [ev] |}.

Definition with_world (w : W) (st : State) : State :=
  {| llm := llm st; dicts := dicts st; responses := responses st;
     world := w; trace := trace st |}.

Definition get_llm : M (option Engine) := λ st, (Returns (llm st), st).

Definition set_llm (h : option Engine) : M unit :=
  λ st, (Returns tt,
         {| llm := h; dicts := dicts st; responses := responses st;
            world := world st; trace := trace st |}).

(** A dict display or comprehension: a new object in the store. *)
Definition new_dict (d : Dict) : M dict_ref :=
  λ st, (Returns (length (dicts st)),
         {| llm := llm st; dicts := dicts st ++ [d]; responses := responses st;
            world := world st; trace := trace st |}).

(** Reading through a reference.  A reference outside the store does not
    exist in Python; the model answers with an exception. *)
Definition read_dict (r : dict_ref) : M Dict :=
  λ st,
    match dicts st !! r with
    | Some d => (Returns d, st)
    | None => (Raises (Exc "SystemError" "no such dict object"), st)
    end.

Definition new_response (mr : ModelResponse) : M resp_ref :=
  λ st, (Returns (length (responses st)),
         {| llm := llm st; dicts := dicts st; responses := responses st ++ [mr];
            world := world st; trace := trace st |}).

Definition read_response (r : resp_ref) : M ModelResponse :=
  λ st,
    match responses st !! r with
    | Some mr => (Returns mr, st)
    | None => (Raises (Exc "SystemError" "no such response object"), st)
    end.

Definition write_response (r : resp_ref) (mr : ModelResponse) : M unit :=
  λ st, (Returns tt,
         {| llm := llm st; dicts := dicts st; responses := <[r := mr]> (responses st);
            world := world st; trace := trace st |}).

(** *** The collaborators *)

Record Env : Type := mkEnv {
  (* [from vllm import LLM, SamplingParams]; [Some e]: it raises [e] *)
  import_vllm : W → option PyExc * W;
  (* [LLM(model=model, **params)] *)
  LLM : string → Dict → W → Outcome Engine * W;
  (* whether [SamplingParams] on the unpacked [kwargs] raises *)
  SamplingParams : Dict → W → option PyExc * W;
  (* [engine.generate(prompts, sampling_params)] *)
  generate : Engine → Prompts → SamplingParamsObj → W → Outcome (list RequestOutput) * W;
  custom_prompt : PyVal → PyVal → PyVal → list PyVal → W → Outcome string * W;
  prompt_factory : string → list PyVal → W → Outcome string * W;
  (* [int(time.time())] *)
  time_time : W → Z * W }.

(** The [logging_obj] argument of [completion]. *)
Record Logging : Type := mkLogging {
  pre_call : string → string → SamplingParamsObj → W → option PyExc * W;
  post_call : string → string → list RequestOutput → SamplingParamsObj → W → option PyExc * W }.

(** The [print_verbose] argument; it receives the f-string built from
    [outputs]. *)
Definition Printer : Type := list RequestOutput → W → option PyExc * W.

(** An external call that yields a value: log it, run it on the world. *)
Definition call {A : Type} (ev : Event) (f : W → Outcome A * W) : M A :=
  λ st, let '(o, w) := f (world st) in (o, with_world w (log ev st)).

(** An external call made for its effect. *)
Definition call_ (ev : Event) (f : W → option PyExc * W) : M unit :=
  λ st,
    let '(o, w) := f (world st) in
    (match o with Some e => Raises e | None => Returns tt end,
     with_world w (log ev st)).

Variable env : Env.

(** ** [validate_environment] (lines 30-56) *)

Definition validate_environment (model : string) (optional_params : option dict_ref)
  : M (option Engine * dict_ref) :=
  try_except
    (call_ EvImport (import_vllm env) ;;;
     defaults <- new_dict default_params ;;
     optional_params <-
       match optional_params with
       | None => new_dict ∅
       | Some r => ret r
       end ;;
     w <- read_dict defaults ;;
     d <- read_dict optional_params ;;
     kept <- new_dict (dict_keep w d) ;;
     a <- read_dict defaults ;;
     b <- read_dict kept ;;
     params <- new_dict (dict_merge a b) ;;
     w <- read_dict defaults ;;
     d <- read_dict optional_params ;;
     optional_params <- new_dict (dict_drop w d) ;;
     cur <- get_llm ;;
     match cur with
     | None =>
         kwargs <- read_dict params ;;
         e <- call (EvLLM model kwargs) (LLM env model kwargs) ;;
         set_llm (Some e)
     | Some _ => ret tt
     end ;;;
     h <- get_llm ;;
     ret (h, optional_params))
    (λ e, raise (VLLMError 0 (py_str e))).

(** ** [completion] (lines 59-130) *)

(** Lines 77-87: the prompt, from the registered template or the default. *)
Definition render_prompt (model : string) (messages : list PyVal)
    (custom_prompt_dict : gmap string Dict) : M string :=
  match custom_prompt_dict !! model with
  | Some model_prompt_details =>
      roles <- eval (py_getitem model_prompt_details "roles") ;;
      initial_prompt_value <- eval (py_getitem model_prompt_details "initial_prompt_value") ;;
      final_prompt_value <- eval (py_getitem model_prompt_details "final_prompt_value") ;;
      call (EvCustomPrompt roles initial_prompt_value final_prompt_value messages)
           (custom_prompt env roles initial_prompt_value final_prompt_value messages)
  | None =>
      call (EvPromptFactory model messages) (prompt_factory env model messages)
  end.

(** Lines 76 and 166: the sampling configuration, built from the unpacked
    generation options.  They are passed on as they are, ["stream"]
    included; which keywords the class accepts is the collaborator's
    affair. *)
Definition make_sampling_params (optional_params : dict_ref) : M SamplingParamsObj :=
  kwargs <- read_dict optional_params ;;
  call_ (EvSamplingParams kwargs) (SamplingParams env kwargs) ;;;
  ret (SamplingParamsOf kwargs).

(** Lines 96-101 and 184-189: [if llm: ... generate ... else: raise].
    [vllm.LLM] defines neither [__bool__] nor [__len__], so an engine
    object is truthy and [None] is the one falsy value the variable can
    hold. *)
Definition generate_or_raise (llm : option Engine) (prompts : Prompts)
    (sampling_params : SamplingParamsObj) : M (list RequestOutput) :=
  match llm with
  | Some engine =>
      call (EvGenerate engine prompts sampling_params)
           (generate env engine prompts sampling_params)
  | None =>
      raise (VLLMError 0 "Need to pass in a model name to initialize vllm")
  end.

(** Lines 116-129 and 195-208: fill one response object from one engine
    output.  The right-hand side of an assignment is evaluated before its
    target. *)
Definition populate (model : string) (model_response : resp_ref) (output : RequestOutput)
  : M unit :=
  candidate <- eval (py_first (outputs output)) ;;
  mr <- read_response model_response ;;
  choice <- eval (py_first (choices mr)) ;;
  write_response model_response
    {| choices := {| message := {| content := Some (text candidate) |} |} :: tail (choices mr);
       created := created mr; mr_model := mr_model mr; usage := usage mr |} ;;;
  let prompt_tokens := py_len (prompt_token_ids output) in
  candidate <- eval (py_first (outputs output)) ;;
  let completion_tokens := py_len (token_ids candidate) in
  now <- call EvTime (λ w, let '(t, w') := time_time env w in (Returns t, w')) ;;
  mr <- read_response model_response ;;
  write_response model_response
    {| choices := choices mr; created := Some now; mr_model := mr_model mr;
       usage := usage mr |} ;;;
  mr <- read_response model_response ;;
  write_response model_response
    {| choices := choices mr; created := created mr; mr_model := Some model;
       usage := usage mr |} ;;;
  let usage' :=
    {| prompt_tokens := prompt_tokens;
       completion_tokens := completion_tokens;
       total_tokens := prompt_tokens + completion_tokens |} in
  mr <- read_response model_response ;;
  write_response model_response
    {| choices := choices mr; created := created mr; mr_model := mr_model mr;
       usage := Some usage' |}.

(** The logging calls get the empty string as [api_key].  The parameters
    [encoding], [litellm_params] and [logger_fn] are never read and are
    left out.  [validate_environment] also returns the
    [SamplingParams] class it imported; here that class is part of the
    environment. *)
Definition completion (model : string) (messages : list PyVal)
    (model_response : resp_ref) (print_verbose : Printer) (logging_obj : Logging)
    (optional_params : option dict_ref) (custom_prompt_dict : gmap string Dict)
  : M CompletionResult :=
  optional_params <-
    try_except
      (r <- validate_environment model optional_params ;;
       let '(h, optional_params) := r in
       set_llm h ;;;
       ret optional_params)
      (λ e, raise (VLLMError 0 (py_str e))) ;;
  sampling_params <- make_sampling_params optional_params ;;
  prompt <- render_prompt model messages custom_prompt_dict ;;
  call_ (EvPreCall prompt EmptyString sampling_params)
        (pre_call logging_obj prompt EmptyString sampling_params) ;;;
  llm <- get_llm ;;
  outputs <- generate_or_raise llm (OnePrompt prompt) sampling_params ;;
  d <- read_dict optional_params ;;
  if stream_requested d then
    ret (RetIterator (py_iter outputs))
  else
    call_ (EvPostCall prompt EmptyString outputs sampling_params)
          (post_call logging_obj prompt EmptyString outputs sampling_params) ;;;
    call_ (EvPrintVerbose outputs) (print_verbose outputs) ;;;
    output <- eval (py_first outputs) ;;
    populate model model_response output ;;;
    ret (RetResponse model_response).

(** ** [batch_completions] (lines 133-210) *)

(** Lines 167-182: one prompt per message list, appended in order. *)
Definition render_prompts (model : string) (messages : list (list PyVal))
    (custom_prompt_dict : gmap string Dict) : M (list string) :=
  for_each
    (λ prompts message,
       prompt <- render_prompt model message custom_prompt_dict ;;
       ret (prompts ++ [prompt]))
    messages [].

(** Lines 191-209: one fresh response object per engine output. *)
Definition collect_responses (model : string) (outputs : list RequestOutput)
  : M (list resp_ref) :=
  for_each
    (λ final_outputs output,
       model_response <- new_response ModelResponse_new ;;
       populate model model_response output ;;;
       ret (final_outputs ++ [model_response]))
    outputs [].

Definition batch_completions (model : string) (messages : list (list PyVal))
    (optional_params : option dict_ref) (custom_prompt_dict : gmap string Dict)
  : M (list resp_ref) :=
  r <-
    try_except
      (validate_environment model optional_params)
      (λ e, let error_str := py_str e in raise (VLLMError 0 error_str)) ;;
  let '(llm, optional_params) := r in
  sampling_params <- make_sampling_params optional_params ;;
  prompts <- render_prompts model messages custom_prompt_dict ;;
  outputs <- generate_or_raise llm (ManyPrompts prompts) sampling_params ;;
  collect_responses model outputs.

(** ** The split of the options, named *)

(** Line 49: what [params] holds, for a caller's dict [d]. *)
Definition construction_options (d : Dict) : Dict :=
  dict_merge default_params (dict_keep default_params d).

(** Line 50: what the rebound [optional_params] holds. *)
Definition generation_options (d : Dict) : Dict :=
  dict_drop default_params d.

(** The dict the caller passed: [None] counts as [{}] (lines 46-47). *)
Definition caller_dict (st : State) (optional_params : option dict_ref) : option Dict :=
  match optional_params with
  | None => Some ∅
  | Some r => dicts st !! r
  end.

(** The dict objects one run of lines 35-50 creates, in order. *)
Definition locals (optional_params : option dict_ref) (d : Dict) : list Dict :=
  (default_params :: match optional_params with None => [∅] | Some _ => [] end)
  ++ [dict_keep default_params d; construction_options d; generation_options d].

(** [validate_environment] with its store operations carried out: what a
    run does when the caller's dict is [d].  Lemma
    [validate_environment_unfold] below shows the two agree. *)
Definition validate_environment_flat (model : string)
    (optional_params : option dict_ref) (d : Dict) (st : State)
  : Outcome (option Engine * dict_ref) * State :=
  let '(imp, w1) := import_vllm env (world st) in
  match imp with
  | Some e =>
      (Raises (VLLMError 0 (py_str e)),
       {| llm := llm st; dicts := dicts st; responses := responses st;
          world := w1; trace := trace st ++ [EvImport] |})
  | None =>
      let ds := dicts st ++ locals optional_params d in
      let r' := length (dicts st) + (length (locals optional_params d) - 1) in
      match llm st with
      | Some e =>
          (Returns (Some e, r'),
           {| llm := Some e; dicts := ds; responses := responses st;
              world := w1; trace := trace st ++ [EvImport] |})
      | None =>
          let '(o, w2) := LLM env model (construction_options d) w1 in
          let tr := trace st ++ [EvImport; EvLLM model (construction_options d)] in
          match o with
          | Returns e =>
              (Returns (Some e, r'),
               {| llm := Some e; dicts := ds; responses := responses st;
                  world := w2; trace := tr |})
          | Raises e =>
              (Raises (VLLMError 0 (py_str e)),
               {| llm := None; dicts := ds; responses := responses st;
                  world := w2; trace := tr |})
          end
      end
  end.

(** The state after an external call: a new world, more events. *)
Definition upd (st : State) (w : W) (evs : list Event) : State :=
  {| llm := llm st; dicts := dicts st; responses := responses st;
     world := w; trace := trace st ++ evs |}.

(** The response object once lines 116-129 have run on it: [rest] are the
    choices after the first, [now] the clock reading. *)
Definition filled (model : string) (now : Z) (output : RequestOutput)
    (candidate : CompletionOutput) (rest : list Choices) : ModelResponse :=
  {| choices := {| message := {| content := Some (text candidate) |} |} :: rest;
     created := Some now;
     mr_model := Some model;
     usage := Some {| prompt_tokens := py_len (prompt_token_ids output);
                      completion_tokens := py_len (token_ids candidate);
                      total_tokens := py_len (prompt_token_ids output)
                                      + py_len (token_ids candidate) |} |}.

(** [populate] with its store operations carried out (lemma
    [populate_unfold]). *)
Definition populate_flat (model : string) (model_response : resp_ref)
    (output : RequestOutput) (st : State) : Outcome unit * State :=
  match outputs output with
  | [] => (Raises IndexError, st)
  | candidate :: _ =>
      match responses st !! model_response with
      | None => (Raises (Exc "SystemError" "no such response object"), st)
      | Some mr =>
          match choices mr with
          | [] => (Raises IndexError, st)
          | _ :: rest =>
              let '(now, w) := time_time env (world st) in
              (Returns tt,
               {| llm := llm st; dicts := dicts st;
                  responses := <[model_response := filled model now output candidate rest]>
                                 (responses st);
                  world := w; trace := trace st ++ [EvTime] |})
          end
      end
  end.

(** [completion] with its store operations carried out, when the caller's
    dict is [d] (lemma [completion_unfold]). *)
Definition completion_flat (model : string) (messages : list PyVal)
    (model_response : resp_ref) (print_verbose : Printer) (logging_obj : Logging)
    (optional_params : option dict_ref) (custom_prompt_dict : gmap string Dict)
    (d : Dict) (st : State) : Outcome CompletionResult * State :=
  match validate_environment_flat model optional_params d st with
  | (Raises e, st1) => (Raises (VLLMError 0 (py_str e)), st1)
  | (Returns (h, _), st1) =>
      let g := generation_options d in
      let sampling_params := SamplingParamsOf g in
      let '(o, w) := SamplingParams env g (world st1) in
      let st2 := upd st1 w [EvSamplingParams g] in
      match o with
      | Some e => (Raises e, st2)
      | None =>
      match render_prompt model messages custom_prompt_dict st2 with
      | (Raises e, st3) => (Raises e, st3)
      | (Returns prompt, st3) =>
      let '(o, w) := pre_call logging_obj prompt EmptyString sampling_params (world st3) in
      let st4 := upd st3 w [EvPreCall prompt EmptyString sampling_params] in
      match o with
      | Some e => (Raises e, st4)
      | None =>
      match h with
      | None =>
          (Raises (VLLMError 0 "Need to pass in a model name to initialize vllm"), st4)
      | Some engine =>
      let '(o, w) := generate env engine (OnePrompt prompt) sampling_params (world st4) in
      let st5 := upd st4 w [EvGenerate engine (OnePrompt prompt) sampling_params] in
      match o with
      | Raises e => (Raises e, st5)
      | Returns outputs =>
      if stream_requested g then (Returns (RetIterator (py_iter outputs)), st5)
      else
        let '(o, w) := post_call logging_obj prompt EmptyString outputs sampling_params (world st5) in
        let st6 := upd st5 w [EvPostCall prompt EmptyString outputs sampling_params] in
        match o with
        | Some e => (Raises e, st6)
        | None =>
        let '(o, w) := print_verbose outputs (world st6) in
        let st7 := upd st6 w [EvPrintVerbose outputs] in
        match o with
        | Some e => (Raises e, st7)
        | None =>
        match outputs with
        | [] => (Raises IndexError, st7)
        | output :: _ =>
        match populate_flat model model_response output st7 with
        | (Raises e, st8) => (Raises e, st8)
        | (Returns _, st8) => (Returns (RetResponse model_response), st8)
        end end end end end end end end end
  end.

End Handler.

Arguments State W : clear implicits.
Arguments M W A : clear implicits.
Arguments Env W : clear implicits.
Arguments Logging W : clear implicits.
Arguments Printer W : clear implicits.

(** The keys of [default_params], as the documentation lists them. *)
Definition whitelist : list string :=
  [ "tokenizer"; "tokenizer_mode"; "skip_tokenizer_init"; "trust_remote_code";
    "dtype"; "quantization"; "gpu_memory_utilization"; "load_format" ].

Notation "x <- m ;; k" := (bind m (λ x, k))
  (at level 90, m at level 60, right associativity).
Notation "m ;;; k" := (bind m (λ _, k))
  (at level 90, right associativity).

(** A prompt the prompt builder gives for a message list, in some state. *)
Definition rendered {W : Type} (env : Env W) (model : string)
    (custom_prompt_dict : gmap string Dict) (message : list PyVal)
    (prompt : string) : Prop :=
  ∃ s : State W,
    (render_prompt env model message custom_prompt_dict s).1 = Returns prompt.

(** A response object filled from one engine output by lines 116-129: the
    text of the first candidate, a timestamp, the model identifier and the
    three token counts. *)
Definition populated_from (model : string) (output : RequestOutput)
    (resp : ModelResponse) : Prop :=
  ∃ candidate rest now u,
    outputs output !! 0 = Some candidate
    ∧ choices resp = {| message := {| content := Some (text candidate) |} |} :: rest
    ∧ created resp = Some now
    ∧ mr_model resp = Some model
    ∧ usage resp = Some u
    ∧ prompt_tokens u = py_len (prompt_token_ids output)
    ∧ completion_tokens u = py_len (token_ids candidate)
    ∧ total_tokens u = (prompt_tokens u + completion_tokens u)%Z.

(** Collaborators that do not raise, an engine that answers a prompt with
    at least one output holding at least one candidate, and a registered
    template (if any) that has its three entries. *)
Definition cooperative {W : Type} (env : Env W) (logging_obj : Logging W)
    (print_verbose : Printer W) (model : string)
    (custom_prompt_dict : gmap string Dict) : Prop :=
  (∀ w, (import_vllm env w).1 = None)
  ∧ (∀ m p w, ∃ e, (LLM env m p w).1 = Returns e)
  ∧ (∀ k w, (SamplingParams env k w).1 = None)
  ∧ (∀ a b c ms w, ∃ p, (custom_prompt env a b c ms w).1 = Returns p)
  ∧ (∀ m ms w, ∃ p, (prompt_factory env m ms w).1 = Returns p)
  ∧ (∀ e p sp w, ∃ o c cs os,
       (generate env e (OnePrompt p) sp w).1 = Returns (o :: os)
       ∧ outputs o = c :: cs)
  ∧ (∀ i k sp w, (pre_call logging_obj i k sp w).1 = None)
  ∧ (∀ i k r sp w, (post_call logging_obj i k r sp w).1 = None)
  ∧ (∀ o w, (print_verbose o w).1 = None)
  ∧ (∀ det, custom_prompt_dict !! model = Some det →
       is_Some (det !! "roles") ∧ is_Some (det !! "initial_prompt_value")
       ∧ is_Some (det !! "final_prompt_value")).

(** The engine's side of a batch call: one output per prompt. *)
Definition one_output_per_prompt {W : Type} (env : Env W) : Prop :=
  ∀ e ps sp w outs,
    (generate env e (ManyPrompts ps) sp w).1 = Returns outs →
    length outs = length ps.

(** Events of engine resolution: the import and the constructor call. *)
Definition is_resolve_event (ev : Event) : bool :=
  match ev with
  | EvImport | EvLLM _ _ => true
  | _ => false
  end.

(** How many events of a kind a list holds. *)
Definition count_events (kind : Event → bool) (evs : list Event) : nat :=
  length (List.filter kind evs).

(** The three entries line 79-84 read from a registered template. *)
Definition template_keys : list string :=
  [ "roles"; "initial_prompt_value"; "final_prompt_value" ].

(** Collaborators that do not raise on a batch: as [cooperative], with an
    engine that answers a list of prompts with outputs that all hold a
    candidate. *)
Definition cooperative_batch {W : Type} (env : Env W) (model : string)
    (custom_prompt_dict : gmap string Dict) : Prop :=
  (∀ w, (import_vllm env w).1 = None)
  ∧ (∀ m p w, ∃ e, (LLM env m p w).1 = Returns e)
  ∧ (∀ k w, (SamplingParams env k w).1 = None)
  ∧ (∀ a b c ms w, ∃ p, (custom_prompt env a b c ms w).1 = Returns p)
  ∧ (∀ m ms w, ∃ p, (prompt_factory env m ms w).1 = Returns p)
  ∧ (∀ e ps sp w, ∃ outs,
       (generate env e (ManyPrompts ps) sp w).1 = Returns outs
       ∧ Forall (λ out, outputs out ≠ []) outs)
  ∧ (∀ det, custom_prompt_dict !! model = Some det →
       is_Some (det !! "roles") ∧ is_Some (det !! "initial_prompt_value")
       ∧ is_Some (det !! "final_prompt_value")).

(** ** A small concrete environment, to run the handler on *)

Module Sample.

(** The world counts the external calls made so far. *)
Definition tick {A : Type} (a : A) (w : nat) : A * nat := (a, S w).

Definition out (n : nat) (txt : string) : RequestOutput :=
  {| prompt_token_ids := [1; 2; 3]%Z;
     outputs := [ {| text := txt; token_ids := repeat 7%Z n |} ] |}.

(** One output per prompt; the k-th output has k+1 completion tokens. *)
Definition engine_generate (prompts : Prompts) : list RequestOutput :=
  match prompts with
  | OnePrompt p => [ out 2 ("echo " +:+ p) ]
  | ManyPrompts ps => imap (λ i p, out (S i) ("echo " +:+ p)) ps
  end.

Definition env : Env nat :=
  {| import_vllm := tick None;
     LLM := λ model params w, (Returns (EngineObj w), S w);
     SamplingParams := λ kwargs, tick None;
     generate := λ e ps sp, tick (Returns (engine_generate ps));
     custom_prompt := λ roles ini fin msgs, tick (Returns "custom prompt");
     prompt_factory := λ model msgs, tick (Returns ("prompt for " +:+ model));
     time_time := λ w, (1700000000 + Z.of_nat w, S w)%Z |}.


(** The engine cannot be built. *)
Definition env_bad_engine : Env nat :=
  {| import_vllm := import_vllm env;
     LLM := λ model params, tick (Raises (Exc "ValueError" "unknown model"));
     SamplingParams := SamplingParams env;
     generate := generate env; custom_prompt := custom_prompt env;
     prompt_factory := prompt_factory env; time_time := time_time env |}.

Definition logging_obj : Logging nat :=
  {| pre_call := λ input api_key sp, tick None;
     post_call := λ input api_key resp sp, tick None |}.

Definition print_verbose : Printer nat := λ outs, tick None.

Definition user_message (txt : string) : PyVal :=
  VDict [("role", VStr "user"); ("content", VStr txt)].

Definition messages : list PyVal := [user_message "good morning? "].

Definition batch_messages : list (list PyVal) :=
  [ [user_message "good morning? "]; [user_message "what's the time? "] ].

(** A caller's options: one construction option, two generation options. *)
Definition options : Dict :=
  <["dtype" := VStr "float16"]> (<["temperature" := VInt 0]> (<["max_tokens" := VInt 16]> ∅)).

Definition options_stream : Dict := <["stream" := VBool true]> options.

(** ["stream"] set to the integer 1, which is not [True] itself. *)
Definition options_stream_1 : Dict := <["stream" := VInt 1]> options.

(** A fresh process: no engine, the caller's dicts at references 0, 1
    and 2, the caller's response object at reference 0. *)
Definition st0 : State nat :=
  {| llm := None;
     dicts := [options; options_stream; options_stream_1];
     responses := [ModelResponse_new];
     world := 0;
     trace := [] |}.

(** A process in which an engine already exists. *)
Definition st_engine : State nat :=
  {| llm := Some (EngineObj 42);
     dicts := [options; options_stream; options_stream_1];
     responses := [ModelResponse_new];
     world := 0;
     trace := [] |}.

End Sample.

(** ** Environments in which something goes wrong *)

Module Faults.
Import Sample.

(** A sampling class that, as the engine package's does, has no [stream]
    parameter and rejects the keyword. *)
Definition env_strict : Env nat :=
  {| import_vllm := import_vllm env;
     LLM := LLM env;
     SamplingParams := λ kwargs,
       tick (match kwargs !! "stream" with
             | Some _ => Some (Exc "TypeError" "unexpected keyword argument 'stream'")
             | None => None
             end);
     generate := generate env; custom_prompt := custom_prompt env;
     prompt_factory := prompt_factory env; time_time := time_time env |}.

(** A template with no ["roles"] entry, and a complete one. *)
Definition template_no_roles : Dict :=
  <["initial_prompt_value" := VStr "<s>"]> (<["final_prompt_value" := VStr "</s>"]> ∅).

Definition template : Dict := <["roles" := VDict []]> template_no_roles.

Definition registered_incomplete : gmap string Dict :=
  {[ "facebook/opt-125m" := template_no_roles ]}.

Definition registered : gmap string Dict := {[ "facebook/opt-125m" := template ]}.

(** An output of the engine that holds no candidate. *)
Definition no_candidate : RequestOutput :=
  {| prompt_token_ids := [1; 2; 3]%Z; outputs := [] |}.

End Faults.

(** * Properties *)

(** ** Lists as stores *)

Lemma lookup_app_len {A : Type} (l k : list A) : (l ++ k) !! length l = k !! 0.
Proof. rewrite lookup_app_r by lia. by rewrite Nat.sub_diag. Qed.

Lemma lookup_app_add {A : Type} (l k : list A) (n : nat) :
  (l ++ k) !! (length l + n) = k !! n.
Proof. rewrite lookup_app_r by lia. f_equal. lia. Qed.

(** Bring store lookups after allocations to a value. *)
Ltac heap_norm :=
  simpl;
  repeat (first [ rewrite <- app_assoc | rewrite length_app
                | rewrite lookup_app_len | rewrite lookup_app_add
                | match goal with
                  | H : ?ds !! ?r = Some ?d |- context [ (?ds ++ ?k) !! ?r ] =>
                      rewrite (lookup_app_l_Some ds k r d H)
                  end ]; simpl).

(** ** The whitelist and the two comprehensions *)

Lemma py_in_default_params (k : string) : py_in k default_params ↔ k ∈ whitelist.
Proof.
  unfold py_in, default_params, whitelist. split.
  - intros [v Hv]. apply elem_of_list_to_map_2 in Hv.
    repeat (apply elem_of_cons in Hv as [Hv | Hv]; [injection Hv as -> _; set_solver |]).
    by apply elem_of_nil in Hv.
  - intros Hk.
    repeat (apply elem_of_cons in Hk as [-> | Hk]; [by eexists |]).
    by apply elem_of_nil in Hk.
Qed.

Lemma lookup_dict_keep_in (w d : Dict) (k : string) :
  py_in k w → dict_keep w d !! k = d !! k.
Proof.
  intros Hk. unfold dict_keep. destruct (d !! k) as [v|] eqn:Hd.
  - by apply map_lookup_filter_Some.
  - apply map_lookup_filter_None. by left.
Qed.

Lemma lookup_dict_keep_out (w d : Dict) (k : string) :
  ¬ py_in k w → dict_keep w d !! k = None.
Proof.
  intros Hk. unfold dict_keep. apply map_lookup_filter_None.
  right. intros v _. exact Hk.
Qed.

Lemma lookup_dict_drop_in (w d : Dict) (k : string) :
  py_in k w → dict_drop w d !! k = None.
Proof.
  intros Hk. unfold dict_drop. apply map_lookup_filter_None.
  right. intros v _ Hn. by apply Hn.
Qed.

Lemma lookup_dict_drop_out (w d : Dict) (k : string) :
  ¬ py_in k w → dict_drop w d !! k = d !! k.
Proof.
  intros Hk. unfold dict_drop. destruct (d !! k) as [v|] eqn:Hd.
  - by apply map_lookup_filter_Some.
  - apply map_lookup_filter_None. by left.
Qed.

Lemma lookup_construction_options_in (d : Dict) (k : string) :
  py_in k default_params →
  construction_options d !! k =
    match d !! k with
    | Some v => Some v
    | None => default_params !! k
    end.
Proof.
  intros Hk. unfold construction_options, dict_merge.
  destruct (d !! k) as [v|] eqn:Hd.
  - apply lookup_union_Some_l. by rewrite lookup_dict_keep_in.
  - apply lookup_union_r. by rewrite lookup_dict_keep_in.
Qed.

Lemma lookup_construction_options_out (d : Dict) (k : string) :
  ¬ py_in k default_params → construction_options d !! k = None.
Proof.
  intros Hk. unfold construction_options, dict_merge.
  apply lookup_union_None. split.
  - by apply lookup_dict_keep_out.
  - apply eq_None_not_Some. exact Hk.
Qed.

Lemma generation_options_empty : generation_options ∅ = ∅.
Proof. unfold generation_options, dict_drop. apply map_filter_empty. Qed.

Lemma construction_options_empty : construction_options ∅ = default_params.
Proof.
  unfold construction_options, dict_merge, dict_keep.
  rewrite map_filter_empty. apply (left_id_L ∅ (∪)).
Qed.

Section Properties.

Context {W : Type} (env : Env W).

(** ** [validate_environment], run *)

Lemma validate_environment_unfold (model : string) (op : option dict_ref)
    (d : Dict) (st : State W) :
  caller_dict st op = Some d →
  validate_environment env model op st = validate_environment_flat env model op d st.
Proof.
  intros Hd.
  unfold validate_environment, validate_environment_flat, try_except, bind,
    call_, call, with_world, log, new_dict, read_dict, ret, raise, get_llm,
    set_llm, construction_options, generation_options.
  destruct st as [g ds rs w tr]; simpl in *.
  destruct (import_vllm env w) as [[e|] w1]; simpl; [done|].
  destruct op as [r|]; simpl in *.
  - heap_norm. destruct g as [e|]; heap_norm; [done|].
    destruct (LLM env model _ w1) as [[e|e] w2]; heap_norm; done.
  - injection Hd as <-. heap_norm. destruct g as [e|]; heap_norm; [done|].
    destruct (LLM env model _ w1) as [[e|e] w2]; heap_norm; done.
Qed.

(** Case analysis on a run of [validate_environment]. *)
Ltac run_validate Hd :=
  rewrite ?(validate_environment_unfold _ _ _ _ Hd) in *;
  unfold validate_environment_flat in *;
  repeat match goal with
    | H : context [ match import_vllm ?e ?w with _ => _ end ] |- _ =>
        let w1 := fresh "w" in destruct (import_vllm e w) as [[?|] w1] eqn:?
    | |- context [ match import_vllm ?e ?w with _ => _ end ] =>
        let w1 := fresh "w" in destruct (import_vllm e w) as [[?|] w1] eqn:?
    | H : context [ match llm ?st with _ => _ end ] |- _ => destruct (llm st) eqn:?
    | |- context [ match llm ?st with _ => _ end ] => destruct (llm st) eqn:?
    | H : context [ match LLM ?e ?m ?p ?w with _ => _ end ] |- _ =>
        let w2 := fresh "w" in destruct (LLM e m p w) as [[?|?] w2] eqn:?
    | |- context [ match LLM ?e ?m ?p ?w with _ => _ end ] =>
        let w2 := fresh "w" in destruct (LLM e m p w) as [[?|?] w2] eqn:?
    end;
  simpl in *.

(** The reference [validate_environment] returns is to the last dict it
    created. *)
Lemma lookup_locals_last (ds : list Dict) (op : option dict_ref) (d : Dict) :
  (ds ++ locals op d) !! (length ds + (length (locals op d) - 1))
  = Some (generation_options d).
Proof. rewrite lookup_app_add. by destruct op. Qed.

(** What [validate_environment] does with the two halves of the split. *)
Lemma validate_environment_split (model : string) (op : option dict_ref) (d : Dict)
    (st : State W) :
  caller_dict st op = Some d →
  (∀ h gen, (validate_environment env model op st).1 = Returns (h, gen) →
       dicts (validate_environment env model op st).2 !! gen
         = Some (generation_options d))
  ∧ (∃ evs, trace (validate_environment env model op st).2 = trace st ++ evs
       ∧ (∀ m p, EvLLM m p ∈ evs → m = model ∧ p = construction_options d)
       ∧ (llm st = None → (import_vllm env (world st)).1 = None →
            EvLLM model (construction_options d) ∈ evs)).
Proof.
  intros Hd. split.
  - intros h gen. run_validate Hd; intros [= <- <-]; apply lookup_locals_last.
  - run_validate Hd.
    + exists [EvImport]. split; [done|]. split; [|done].
      intros m' p' Hin. apply list_elem_of_singleton in Hin. discriminate.
    + exists [EvImport]. split; [done|]. split; [|done].
      intros m' p' Hin. apply list_elem_of_singleton in Hin. discriminate.
    + exists [EvImport; EvLLM model (construction_options d)].
      split; [done|]. split; [|intros; set_solver].
      intros m' p' Hin. apply elem_of_cons in Hin as [Hin | Hin]; [discriminate|].
      apply list_elem_of_singleton in Hin. by injection Hin as -> ->.
    + exists [EvImport; EvLLM model (construction_options d)].
      split; [done|]. split; [|intros; set_solver].
      intros m' p' Hin. apply elem_of_cons in Hin as [Hin | Hin]; [discriminate|].
      apply list_elem_of_singleton in Hin. by injection Hin as -> ->.
Qed.

(** C1: the options map is split in two.  A whitelist key goes to the
    construction options only, with the caller's value when the caller
    gave one and the default otherwise; any other key goes to the
    generation options only, with the caller's value.  The generation
    options are what [validate_environment] returns, and the construction
    options are what the [LLM] constructor receives whenever it is
    called. *)
Theorem options_partition (model : string) (op : option dict_ref) (d : Dict)
    (st : State W) :
  caller_dict st op = Some d →
  (∀ k, k ∈ whitelist →
     construction_options d !! k
       = match d !! k with Some v => Some v | None => default_params !! k end
     ∧ is_Some (default_params !! k)
     ∧ generation_options d !! k = None)
  ∧ (∀ k, k ∉ whitelist →
       construction_options d !! k = None ∧ generation_options d !! k = d !! k)
  ∧ (∀ h gen, (validate_environment env model op st).1 = Returns (h, gen) →
       dicts (validate_environment env model op st).2 !! gen
         = Some (generation_options d))
  ∧ (∃ evs, trace (validate_environment env model op st).2 = trace st ++ evs
       ∧ (∀ m p, EvLLM m p ∈ evs → m = model ∧ p = construction_options d)
       ∧ (llm st = None → (import_vllm env (world st)).1 = None →
            EvLLM model (construction_options d) ∈ evs)).
Proof.
  intros Hd. split; [|split].
  - intros k Hk. apply py_in_default_params in Hk. split; [|split].
    + by apply lookup_construction_options_in.
    + exact Hk.
    + by apply lookup_dict_drop_in.
  - intros k Hk. rewrite <- py_in_default_params in Hk. split.
    + by apply lookup_construction_options_out.
    + by apply lookup_dict_drop_out.
  - by apply validate_environment_split.
Qed.

(** A run of [validate_environment] in a process that has an engine. *)
Lemma validate_environment_engine_exists (model : string) (op : option dict_ref)
    (d : Dict) (e : Engine) (st : State W) :
  llm st = Some e → caller_dict st op = Some d →
  llm (validate_environment env model op st).2 = Some e
  ∧ (∀ h g, (validate_environment env model op st).1 = Returns (h, g) → h = Some e)
  ∧ ((import_vllm env (world st)).1 = None →
       ∃ g, (validate_environment env model op st).1 = Returns (Some e, g))
  ∧ trace (validate_environment env model op st).2 = trace st ++ [EvImport].
Proof.
  intros He Hd. run_validate Hd; simplify_eq; repeat split; try done.
  - by intros h g [= <- _].
  - by eexists.
Qed.

(** C2: the engine handle is a process-wide singleton and the first caller
    wins.  In a process that has an engine, two calls in sequence, whatever
    their model identifiers and options, both leave the global handle as it
    was, both hand back that same handle whenever they return (and they do
    return when the engine package resolves), and the [LLM] constructor is
    not called: the model identifiers play no part. *)
Theorem engine_singleton (model1 model2 : string) (op1 op2 : option dict_ref)
    (d1 d2 : Dict) (e : Engine) (st : State W) :
  llm st = Some e →
  caller_dict st op1 = Some d1 →
  caller_dict (validate_environment env model1 op1 st).2 op2 = Some d2 →
  let r1 := validate_environment env model1 op1 st in
  let r2 := validate_environment env model2 op2 r1.2 in
  llm r1.2 = Some e ∧ llm r2.2 = Some e
  ∧ (∀ h g, r1.1 = Returns (h, g) → h = Some e)
  ∧ (∀ h g, r2.1 = Returns (h, g) → h = Some e)
  ∧ ((import_vllm env (world st)).1 = None → ∃ g, r1.1 = Returns (Some e, g))
  ∧ ((import_vllm env (world r1.2)).1 = None → ∃ g, r2.1 = Returns (Some e, g))
  ∧ ∃ evs, trace r2.2 = trace st ++ evs
           ∧ Forall (λ ev, is_LLM_event ev = false) evs.
Proof.
  intros He Hd1 Hd2 r1 r2.
  destruct (validate_environment_engine_exists model1 op1 d1 e st He Hd1)
    as (Hl1 & Hh1 & Hr1 & Ht1).
  destruct (validate_environment_engine_exists model2 op2 d2 e r1.2 Hl1 Hd2)
    as (Hl2 & Hh2 & Hr2 & Ht2).
  repeat split; try done.
  exists [EvImport; EvImport]. split.
  - subst r2. rewrite Ht2. subst r1. rewrite Ht1. by rewrite <- app_assoc.
  - by repeat constructor.
Qed.

(** First caller wins, from any state: once a call has returned a handle,
    a later call returns the same one and builds nothing. *)
Lemma first_caller_wins (model1 model2 : string) (op1 op2 : option dict_ref)
    (d1 d2 : Dict) (st st1 : State W) (h1 : option Engine) (g1 : dict_ref) :
  caller_dict st op1 = Some d1 →
  validate_environment env model1 op1 st = (Returns (h1, g1), st1) →
  caller_dict st1 op2 = Some d2 →
  ∃ e, h1 = Some e ∧ llm st1 = Some e
       ∧ llm (validate_environment env model2 op2 st1).2 = Some e
       ∧ (∀ h g, (validate_environment env model2 op2 st1).1 = Returns (h, g) → h = h1)
       ∧ trace (validate_environment env model2 op2 st1).2 = trace st1 ++ [EvImport].
Proof.
  intros Hd1 Hrun Hd2.
  assert (∃ e, h1 = Some e ∧ llm st1 = Some e) as (e & -> & He).
  { revert Hrun. run_validate Hd1; intros [= <- _ <-]; by eexists. }
  exists e.
  destruct (validate_environment_engine_exists model2 op2 d2 e st1 He Hd2)
    as (Hl & Hh & _ & Ht).
  repeat split; try done.
Qed.

(** Dict objects that exist before a call are the same after it. *)
Lemma validate_environment_keeps_dicts (model : string) (op : option dict_ref)
    (d : Dict) (st : State W) :
  caller_dict st op = Some d →
  ∃ fresh, dicts (validate_environment env model op st).2 = dicts st ++ fresh.
Proof.
  intros Hd. run_validate Hd; first [ exists []; by rewrite app_nil_r | by eexists ].
Qed.

(** C10: [None] for the options is taken as the empty dict: the engine is
    built from the defaults alone, the generation options handed back are
    empty, and the call returns as soon as the package resolves and the
    engine exists or can be built.  Whatever the options, no dict that
    existed before the call is changed by it; the dict handed back is a
    new object. *)
Theorem none_options_and_fresh_dicts (model : string) (st : State W) :
  (∀ h g, (validate_environment env model None st).1 = Returns (h, g) →
     dicts (validate_environment env model None st).2 !! g = Some ∅)
  ∧ (∃ evs, trace (validate_environment env model None st).2 = trace st ++ evs
       ∧ (∀ m p, EvLLM m p ∈ evs → p = default_params)
       ∧ (llm st = None → (import_vllm env (world st)).1 = None →
            EvLLM model default_params ∈ evs))
  ∧ ((import_vllm env (world st)).1 = None →
     (is_Some (llm st)
      ∨ ∃ e, (LLM env model default_params (import_vllm env (world st)).2).1 = Returns e) →
     ∃ e g, (validate_environment env model None st).1 = Returns (Some e, g))
  ∧ (∀ op d, caller_dict st op = Some d →
       (∀ r0 d0, dicts st !! r0 = Some d0 →
          dicts (validate_environment env model op st).2 !! r0 = Some d0)
       ∧ (∀ h g, (validate_environment env model op st).1 = Returns (h, g) →
            (length (dicts st) ≤ g)%nat
            ∧ dicts st !! g = None
            ∧ (∀ r, op = Some r → g ≠ r))).
Proof.
  assert (caller_dict st None = Some ∅) as Hnone by done.
  split; [|split; [|split]].
  - intros h g Hret.
    destruct (validate_environment_split model None ∅ st Hnone) as (Hgen & _).
    rewrite (Hgen h g Hret). by rewrite generation_options_empty.
  - destruct (validate_environment_split model None ∅ st Hnone) as (_ & evs & Htr & Hev & Hin).
    rewrite construction_options_empty in *.
    exists evs. split; [done|]. split; [|done].
    intros m' p' Hp. by destruct (Hev m' p' Hp).
  - intros Himp Hok. run_validate Hnone; try done.
    + by eexists _, _.
    + by eexists _, _.
    + destruct Hok as [[? [=]] | [e' He']].
      rewrite construction_options_empty in *.
      match goal with
      | H : LLM env model default_params _ = (Raises _, _) |- _ => rewrite H in He'
      end.
      discriminate.
  - intros op d Hd. split.
    + intros r0 d0 Hr0.
      destruct (validate_environment_keeps_dicts model op d st Hd) as [fresh ->].
      by apply lookup_app_l_Some.
    + intros h g Hret.
      assert (length (dicts st) ≤ g)%nat as Hle.
      { revert Hret. run_validate Hd; intros [= _ <-]; lia. }
      split; [done|]. split.
      * by apply lookup_ge_None.
      * intros r -> ->. simpl in Hd. apply lookup_lt_Some in Hd. lia.
Qed.

(** ** [populate], [render_prompt] and the sampling configuration, run *)

Lemma populate_unfold (model : string) (r : resp_ref) (output : RequestOutput)
    (st : State W) :
  populate env model r output st = populate_flat env model r output st.
Proof.
  unfold populate, populate_flat, bind, eval, read_response, write_response, call,
    with_world, log.
  destruct st as [g ds rs w tr]; simpl.
  destruct (outputs output) as [|candidate cs]; simpl; [done|].
  destruct (rs !! r) as [mr|] eqn:Hr; simpl; [|done].
  destruct (choices mr) as [|c rest]; simpl; [done|].
  destruct (time_time env w) as [now w'] eqn:Ht; simpl.
  assert (r < length rs)%nat as Hlt by (by eapply lookup_lt_Some).
  repeat (rewrite list_lookup_insert_eq by (rewrite ?length_insert; done); simpl).
  by rewrite !list_insert_insert_eq.
Qed.

Lemma render_prompt_frame (model : string) (messages : list PyVal)
    (cpd : gmap string Dict) (st : State W) :
  ∃ w evs, (render_prompt env model messages cpd st).2 = upd st w evs
           ∧ Forall (λ ev, is_prompt_event ev = true) evs.
Proof.
  unfold render_prompt, bind, eval, call, with_world, log, upd.
  destruct st as [g ds rs w tr]; simpl.
  assert (∃ w0 evs, mkState g ds rs w tr = mkState g ds rs w0 (tr ++ evs)
                    ∧ Forall (λ ev, is_prompt_event ev = true) evs) as Hstay.
  { exists w, []. by rewrite app_nil_r. }
  destruct (cpd !! model) as [det|].
  - destruct (py_getitem det "roles"); simpl; [|apply Hstay].
    destruct (py_getitem det "initial_prompt_value"); simpl; [|apply Hstay].
    destruct (py_getitem det "final_prompt_value"); simpl; [|apply Hstay].
    match goal with
    | |- context [ custom_prompt env ?a ?b ?c ?m w ] =>
        destruct (custom_prompt env a b c m w) as [o w']
    end; simpl.
    eexists w', [_]. split; [reflexivity|]. by repeat constructor.
  - simpl. destruct (prompt_factory env model messages w) as [o w']. simpl.
    eexists w', [_]. split; [reflexivity|]. by repeat constructor.
Qed.

Lemma make_sampling_params_unfold (gen : dict_ref) (g : Dict) (st : State W) :
  dicts st !! gen = Some g →
  make_sampling_params env gen st =
    ((match (SamplingParams env g (world st)).1 with
      | Some e => Raises e
      | None => Returns (SamplingParamsOf g)
      end),
     upd st (SamplingParams env g (world st)).2 [EvSamplingParams g]).
Proof.
  intros Hg. unfold make_sampling_params, bind, read_dict, call_, ret, with_world, log, upd.
  rewrite Hg. simpl. by destruct (SamplingParams env g (world st)) as [[e|] w].
Qed.

(** ** [completion], run *)

Arguments populate : simpl never.
Arguments render_prompt : simpl never.

Lemma completion_unfold (model : string) (messages : list PyVal) (mr : resp_ref)
    (pv : Printer W) (lg : Logging W) (op : option dict_ref)
    (cpd : gmap string Dict) (d : Dict) (st : State W) :
  caller_dict st op = Some d →
  completion env model messages mr pv lg op cpd st
  = completion_flat env model messages mr pv lg op cpd d st.
Proof.
  intros Hd. unfold completion, completion_flat.
  unfold bind at 1. unfold try_except, bind at 1.
  rewrite (validate_environment_unfold model op d st Hd).
  destruct (validate_environment_flat env model op d st) as [[[h gen]|e] st1] eqn:Hv;
    [|done].
  assert (llm st1 = h ∧ dicts st1 !! gen = Some (generation_options d)) as [Hh Hgen].
  { revert Hv. unfold validate_environment_flat.
    destruct (import_vllm env (world st)) as [[?|] w1]; [done|].
    destruct (llm st); [|destruct (LLM env model _ w1) as [[?|?] w2]];
      intros [= <- <- <-]; simpl; (split; [done|]); apply lookup_locals_last. }
  assert (bind (set_llm h) (λ _, ret gen) st1 = (Returns gen, st1)) as ->.
  { unfold bind, set_llm, ret. rewrite <- Hh. by destruct st1. }
  unfold bind.
  rewrite (make_sampling_params_unfold gen _ st1 Hgen).
  destruct (SamplingParams env (generation_options d) (world st1)) as [[e|] w2]; simpl;
    [done|].
  pose proof (render_prompt_frame model messages cpd
                (upd st1 w2 [EvSamplingParams (generation_options d)])) as (w3 & evs & Hst3 & _).
  destruct (render_prompt env model messages cpd _) as [[prompt|e] st3]; [|done].
  simpl in Hst3. subst st3.
  unfold call_, get_llm, generate_or_raise, call, read_dict, with_world, log, upd. simpl.
  set (sp := SamplingParamsOf (generation_options d)).
  destruct (pre_call lg prompt EmptyString sp w3) as [[e|] w4]; cbn; [done|].
  rewrite Hh. destruct h as [engine|]; [|done]. cbn.
  destruct (generate env engine (OnePrompt prompt) sp w4) as [[outs|e] w5]; cbn;
    [|done].
  rewrite Hgen.
  destruct (stream_requested (generation_options d)); [done|]. cbn.
  destruct (post_call lg prompt EmptyString outs sp w5) as [[e|] w6]; cbn; [done|].
  destruct (pv outs w6) as [[e|] w7]; cbn; [done|].
  unfold eval. destruct outs as [|output outs']; cbn; [done|].
  by rewrite populate_unfold.
Qed.

(** Case analysis on a run of [completion]. *)
Ltac frame_prompts :=
  repeat match goal with
    | H : render_prompt _ ?m ?ms ?cpd ?st = (_, ?st') |- _ =>
        let w := fresh "w" in let evs := fresh "evs" in
        let Hfr := fresh "Hfr" in let Hev := fresh "Hev" in
        pose proof (render_prompt_frame m ms cpd st) as (w & evs & Hfr & Hev);
        rewrite H in Hfr; simpl in Hfr; subst st'
    end.

Ltac run_completion Hd :=
  rewrite ?(completion_unfold _ _ _ _ _ _ _ _ _ Hd) in *;
  unfold completion_flat, validate_environment_flat, populate_flat in *;
  repeat (case_match; simplify_eq; frame_prompts); unfold upd in *; simpl in *.

Lemma completion_returns_response (model : string) (messages : list PyVal)
    (mr : resp_ref) (pv : Printer W) (lg : Logging W) (op : option dict_ref)
    (cpd : gmap string Dict) (d : Dict) (st st' : State W) (r : resp_ref) :
  caller_dict st op = Some d →
  completion env model messages mr pv lg op cpd st = (Returns (RetResponse r), st') →
  r = mr
  ∧ stream_requested (generation_options d) = false
  ∧ ∃ engine prompt w w' outs output resp pre,
      let sp := SamplingParamsOf (generation_options d) in
      generate env engine (OnePrompt prompt) sp w = (Returns outs, w')
      ∧ outs !! 0 = Some output
      ∧ responses st' !! mr = Some resp
      ∧ populated_from model output resp
      ∧ (∀ r0, r0 ≠ mr → responses st' !! r0 = responses st !! r0)
      ∧ trace st' = trace st ++ pre
                    ++ [EvPreCall prompt EmptyString sp; EvGenerate engine (OnePrompt prompt) sp;
                        EvPostCall prompt EmptyString outs sp; EvPrintVerbose outs; EvTime]
      ∧ Forall (λ ev, is_log_event ev = false ∧ is_generate_event ev = false) pre.
Proof.
  intros Hd Hrun. run_completion Hd.
  all: split; [done|]; split; [done|].
  all: match goal with
       | Hg : generate env ?e (OnePrompt ?a) _ ?w = (Returns (?o :: ?l), ?w'),
         Ho : outputs ?o = ?c :: _, Ht : time_time env _ = (?z, _),
         Hc : choices _ = _ :: ?rest
         |- context [ (trace _ ++ ?pre0) ++ [EvSamplingParams ?g] ] =>
           exists e, a, w, w', (o :: l), o, (filled model z o c rest),
                  (pre0 ++ [EvSamplingParams g] ++ evs);
           split; [exact Hg|]; split; [done|]; split;
             [apply list_lookup_insert_eq; by eapply lookup_lt_Some|];
           split; [exists c, rest, z; eexists; rewrite Ho; by repeat split|]
       end.
  all: split; [intros r1 Hr1; by apply list_lookup_insert_ne|].
  all: split; [by rewrite <- !app_assoc|].
  all: repeat (apply Forall_app; split); try by repeat constructor.
  all: eapply Forall_impl; [exact Hev|]; by intros [].
Qed.

Lemma completion_returns_iterator (model : string) (messages : list PyVal)
    (mr : resp_ref) (pv : Printer W) (lg : Logging W) (op : option dict_ref)
    (cpd : gmap string Dict) (d : Dict) (st st' : State W) (it : ListIterator) :
  caller_dict st op = Some d →
  completion env model messages mr pv lg op cpd st = (Returns (RetIterator it), st') →
  stream_requested (generation_options d) = true
  ∧ ∃ engine prompt w w' outs pre,
      let sp := SamplingParamsOf (generation_options d) in
      generate env engine (OnePrompt prompt) sp w = (Returns outs, w')
      ∧ it = py_iter outs
      ∧ responses st' = responses st
      ∧ trace st' = trace st ++ pre
                    ++ [EvPreCall prompt EmptyString sp; EvGenerate engine (OnePrompt prompt) sp]
      ∧ Forall (λ ev, is_log_event ev = false ∧ is_generate_event ev = false) pre.
Proof.
  intros Hd Hrun. run_completion Hd.
  all: split; [done|].
  all: match goal with
       | Hg : generate env ?e (OnePrompt ?a) _ ?w = (Returns ?outs, ?w')
         |- context [ (trace _ ++ ?pre0) ++ [EvSamplingParams ?g] ] =>
           exists e, a, w, w', outs, (pre0 ++ [EvSamplingParams g] ++ evs);
           split; [exact Hg|]; split; [done|]; split; [done|]
       end.
  all: split; [by rewrite <- !app_assoc|].
  all: repeat (apply Forall_app; split); try by repeat constructor.
  all: eapply Forall_impl; [exact Hev|]; by intros [].
Qed.

(** With cooperative collaborators the prompt is rendered. *)
Lemma render_prompt_cooperative (model : string) (messages : list PyVal)
    (pv : Printer W) (lg : Logging W) (cpd : gmap string Dict) (st : State W) :
  cooperative env lg pv model cpd →
  ∃ p, (render_prompt env model messages cpd st).1 = Returns p.
Proof.
  intros (_ & _ & _ & Hcp & Hpf & _ & _ & _ & _ & Hdet).
  unfold render_prompt, bind, eval, call, py_getitem.
  destruct (cpd !! model) as [det|] eqn:Hm.
  - destruct (Hdet det eq_refl) as ([a Ha] & [b Hb] & [c Hc]).
    rewrite Ha, Hb, Hc. simpl.
    destruct (Hcp a b c messages (world st)) as [p Hp].
    destruct (custom_prompt env a b c messages (world st)) as [o w].
    simpl in *. by exists p.
  - destruct (Hpf model messages (world st)) as [p Hp].
    destruct (prompt_factory env model messages (world st)) as [o w].
    simpl in *. by exists p.
Qed.

(** Contradict a collaborator that raised although it is cooperative. *)
Ltac cooperate :=
  match goal with
  | Hc : ∀ w, (import_vllm _ w).1 = None, H : import_vllm _ ?w = (Some _, _) |- _ =>
      specialize (Hc w); rewrite H in Hc; discriminate
  | Hc : ∀ m p w, ∃ e, (LLM _ m p w).1 = Returns e, H : LLM _ ?m ?p ?w = (Raises _, _) |- _ =>
      destruct (Hc m p w) as [? Hc']; rewrite H in Hc'; discriminate
  | Hc : ∀ k w, (SamplingParams _ k w).1 = None,
    H : SamplingParams _ ?k ?w = (Some _, _) |- _ =>
      specialize (Hc k w); rewrite H in Hc; discriminate
  | Hc : ∀ i k sp w, (pre_call _ i k sp w).1 = None,
    H : pre_call _ ?i ?k ?sp ?w = (Some _, _) |- _ =>
      specialize (Hc i k sp w); rewrite H in Hc; discriminate
  | Hc : ∀ i k r sp w, (post_call _ i k r sp w).1 = None,
    H : post_call _ ?i ?k ?r ?sp ?w = (Some _, _) |- _ =>
      specialize (Hc i k r sp w); rewrite H in Hc; discriminate
  | Hc : ∀ o w, (?pv o w).1 = None, H : ?pv ?o ?w = (Some _, _) |- _ =>
      specialize (Hc o w); rewrite H in Hc; discriminate
  | Hc : ∀ e p sp w, ∃ o c cs os, (generate _ e (OnePrompt p) sp w).1 = Returns (o :: os) ∧ _,
    H : generate _ ?e (OnePrompt ?p) ?sp ?w = (_, _) |- _ =>
      let Hc1 := fresh in let Hc2 := fresh in
      destruct (Hc e p sp w) as (? & ? & ? & ? & Hc1 & Hc2);
      rewrite H in Hc1; simpl in Hc1; simplify_eq; congruence
  end.

Lemma completion_cooperative (model : string) (messages : list PyVal)
    (mr : resp_ref) (pv : Printer W) (lg : Logging W) (op : option dict_ref)
    (cpd : gmap string Dict) (d : Dict) (st : State W) :
  cooperative env lg pv model cpd →
  caller_dict st op = Some d →
  (stream_requested (generation_options d) = true
   ∨ ∃ resp0 c0 rest, responses st !! mr = Some resp0 ∧ choices resp0 = c0 :: rest) →
  ∃ res, (completion env model messages mr pv lg op cpd st).1 = Returns res.
Proof.
  intros Hco Hd Hok.
  pose proof Hco as (Himp & HLLM & Hsp & _ & _ & Hgen & Hpre & Hpost & Hpv & _).
  rewrite (completion_unfold _ _ _ _ _ _ _ _ _ Hd).
  unfold completion_flat, validate_environment_flat, populate_flat.
  destruct Hok as [Hs | (resp0 & c0 & rest & Hmr & Hch)].
  1: rewrite Hs.
  all: repeat (case_match; simplify_eq; frame_prompts); unfold upd in *; simpl in *.
  all: try by eexists.
  all: try cooperate.
  all: match goal with
       | H : render_prompt _ ?m ?ms ?c ?s = (Raises _, _) |- _ =>
           destruct (render_prompt_cooperative m ms pv lg c s Hco) as [p Hp];
           rewrite H in Hp; discriminate
       end.
Qed.

(** ** The iterator *)

Lemma drain_from (l : list RequestOutput) :
  ∀ n i, (i + n = length l)%nat →
    drain n {| it_seq := l; it_index := i |}
    = (drop i l, {| it_seq := l; it_index := length l |}).
Proof.
  induction n as [|n IH]; intros i Hi; simpl.
  - rewrite Nat.add_0_r in Hi. subst i. by rewrite drop_all.
  - unfold py_next. simpl.
    destruct (l !! i) as [x|] eqn:Hx.
    + rewrite IH by lia. by rewrite (drop_S l x i Hx).
    + apply lookup_ge_None in Hx. lia.
Qed.

Lemma drain_py_iter (l : list RequestOutput) :
  drain (length l) (py_iter l) = (l, {| it_seq := l; it_index := length l |}).
Proof. unfold py_iter. by rewrite drain_from. Qed.

Lemma py_next_exhausted (l : list RequestOutput) :
  py_next {| it_seq := l; it_index := length l |}
  = (None, {| it_seq := l; it_index := length l |}).
Proof. unfold py_next. simpl. by rewrite lookup_ge_None_2. Qed.

(** ["stream"] is not a construction option: the test of line 104 sees the
    caller's value. *)
Lemma stream_requested_generation_options (d : Dict) :
  stream_requested (generation_options d) = stream_requested d.
Proof.
  unfold stream_requested, generation_options.
  rewrite lookup_dict_drop_out; [done|].
  rewrite py_in_default_params. unfold whitelist. intros Hin.
  repeat (apply elem_of_cons in Hin as [Hin | Hin]; [discriminate|]).
  by apply elem_of_nil in Hin.
Qed.

Lemma stream_requested_True (d : Dict) :
  stream_requested d = true ↔ d !! "stream" = Some (VBool true).
Proof.
  unfold stream_requested, py_is_True. split.
  - destruct (d !! "stream") as [[| [] | | | | |]|]; by intros.
  - by intros ->.
Qed.

(** ** The two loops of [batch_completions] *)

Lemma upd_id (st : State W) : upd st (world st) [] = st.
Proof. unfold upd. destruct st. simpl. by rewrite app_nil_r. Qed.

Lemma upd_upd (st : State W) (w w' : W) (evs evs' : list Event) :
  upd (upd st w evs) w' evs' = upd st w' (evs ++ evs').
Proof. unfold upd. simpl. by rewrite app_assoc. Qed.

Lemma render_prompts_loop (model : string) (cpd : gmap string Dict)
    (messages : list (list PyVal)) :
  ∀ (acc : list string) (st st' : State W) (o : Outcome (list string)),
    for_each (λ prompts message,
                prompt <- render_prompt env model message cpd ;;
                ret (prompts ++ [prompt])) messages acc st = (o, st') →
    ∃ w evs,
      st' = upd st w evs
      ∧ Forall (λ ev, is_prompt_event ev = true) evs
      ∧ ∀ ps, o = Returns ps →
          ∃ new, ps = acc ++ new ∧ Forall2 (rendered env model cpd) messages new.
Proof.
  induction messages as [|message messages IH]; intros acc st st' o Hrun; simpl in Hrun.
  - injection Hrun as <- <-.
    exists (world st), []. rewrite upd_id. split; [done|]. split; [constructor|].
    intros ps [= <-]. exists []. split; [by rewrite app_nil_r | constructor].
  - unfold bind at 1 2 in Hrun.
    destruct (render_prompt_frame model message cpd st) as (w1 & evs1 & Hfr & Hev1).
    destruct (render_prompt env model message cpd st) as [[prompt|e] st1] eqn:Hr;
      simpl in Hfr; subst st1.
    + unfold ret at 1 in Hrun.
      destruct (IH _ _ _ _ Hrun) as (w2 & evs2 & -> & Hev2 & Hps).
      exists w2, (evs1 ++ evs2). rewrite upd_upd. split; [done|].
      split; [by apply Forall_app|].
      intros ps Hret. destruct (Hps ps Hret) as (new & -> & Hnew).
      exists (prompt :: new). split; [by rewrite <- app_assoc|].
      constructor; [|done]. exists st. by rewrite Hr.
    + injection Hrun as <- <-.
      exists w1, evs1. split; [done|]. split; [done|]. intros ps [=].
Qed.

Lemma collect_responses_loop (model : string) (outs : list RequestOutput) :
  ∀ (acc : list resp_ref) (st st' : State W) (o : Outcome (list resp_ref)),
    for_each (λ final_outputs output,
                model_response <- new_response ModelResponse_new ;;
                populate env model model_response output ;;;
                ret (final_outputs ++ [model_response])) outs acc st = (o, st') →
    llm st' = llm st
    ∧ dicts st' = dicts st
    ∧ (∃ n, trace st' = trace st ++ repeat EvTime n)
    ∧ ∀ rs, o = Returns rs →
        ∃ new, responses st' = responses st ++ new
               ∧ rs = acc ++ seq (length (responses st)) (length outs)
               ∧ Forall2 (populated_from model) outs new.
Proof.
  induction outs as [|output outs IH]; intros acc st st' o Hrun; simpl in Hrun.
  - injection Hrun as <- <-. repeat split; try done.
    + exists 0%nat. simpl. by rewrite app_nil_r.
    + intros rs [= <-]. exists []. rewrite !app_nil_r. by repeat split.
  - unfold bind at 1 2 in Hrun. unfold new_response at 1 in Hrun.
    unfold bind at 1 in Hrun. rewrite populate_unfold in Hrun.
    unfold populate_flat in Hrun. simpl in Hrun.
    rewrite lookup_app_len in Hrun. simpl in Hrun.
    destruct (outputs output) as [|candidate cs] eqn:Hc; simpl in Hrun.
    { injection Hrun as <- <-. simpl. repeat split; try done.
      exists 0%nat. simpl. by rewrite app_nil_r. }
    destruct (time_time env (world st)) as [now w1]. unfold ret at 1 in Hrun.
    rewrite insert_app_r_alt, Nat.sub_diag in Hrun by lia. simpl in Hrun.
    destruct (IH _ _ _ _ Hrun) as (Hl & Hd & [n Ht] & Hrs).
    simpl in *. rewrite Hl, Hd, Ht.
    repeat split; try done.
    + exists (S n). by rewrite <- app_assoc.
    + intros rs Hret. destruct (Hrs rs Hret) as (new & Hresp & -> & Hnew).
      exists (filled model now output candidate [] :: new).
      rewrite Hresp, <- !app_assoc, length_app. simpl.
      rewrite Nat.add_1_r. repeat split; try done.
      constructor; [|done].
      exists candidate, [], now. eexists. rewrite Hc. by repeat split.
Qed.

(** ** [batch_completions], run *)

Lemma repeat_EvTime_no_log (n : nat) :
  Forall (λ ev, is_log_event ev = false) (repeat EvTime n).
Proof. induction n; simpl; by constructor. Qed.

Lemma prompt_events_no_log (evs : list Event) :
  Forall (λ ev, is_prompt_event ev = true) evs →
  Forall (λ ev, is_log_event ev = false) evs.
Proof. intros H. eapply Forall_impl; [exact H|]. by intros []. Qed.

Ltac no_log :=
  repeat first
    [ assumption
    | apply Forall_nil_2
    | apply Forall_app; split
    | apply Forall_cons_2; [reflexivity|]
    | apply prompt_events_no_log; assumption
    | apply repeat_EvTime_no_log ].

Lemma batch_completions_run (model : string) (messages : list (list PyVal))
    (op : option dict_ref) (cpd : gmap string Dict) (d : Dict)
    (st st' : State W) (o : Outcome (list resp_ref)) :
  caller_dict st op = Some d →
  batch_completions env model messages op cpd st = (o, st') →
  (∃ evs, trace st' = trace st ++ evs ∧ Forall (λ ev, is_log_event ev = false) evs)
  ∧ ∀ rs, o = Returns rs →
      ∃ engine prompts w w' outs new,
        Forall2 (rendered env model cpd) messages prompts
        ∧ generate env engine (ManyPrompts prompts)
            (SamplingParamsOf (generation_options d)) w = (Returns outs, w')
        ∧ responses st' = responses st ++ new
        ∧ rs = seq (length (responses st)) (length outs)
        ∧ Forall2 (populated_from model) outs new.
Proof.
  intros Hd Hrun. unfold batch_completions in Hrun.
  unfold bind at 1 in Hrun. unfold try_except in Hrun.
  rewrite (validate_environment_unfold model op d st Hd) in Hrun.
  destruct (validate_environment_flat env model op d st) as [[[h gen]|e] st1] eqn:Hv.
  2: { injection Hrun as <- <-. split; [|intros rs [=]].
       revert Hv. unfold validate_environment_flat.
       destruct (import_vllm env (world st)) as [[?|] w1].
       - intros [= _ <-]. simpl. eexists. split; [reflexivity|]. no_log.
       - destruct (llm st); [done|].
         destruct (LLM env model _ w1) as [[?|?] w2]; intros [= _ <-]; simpl.
         eexists. split; [reflexivity|]. no_log. }
  assert (∃ engine pre,
            h = Some engine ∧ dicts st1 !! gen = Some (generation_options d)
            ∧ responses st1 = responses st
            ∧ trace st1 = trace st ++ pre
            ∧ Forall (λ ev, is_log_event ev = false) pre)
    as (engine & pre & -> & Hgen & Hresp & Htr & Hpre).
  { revert Hv. unfold validate_environment_flat.
    destruct (import_vllm env (world st)) as [[?|] w1]; [done|].
    destruct (llm st); [|destruct (LLM env model _ w1) as [[?|?] w2]];
      intros [= <- <- <-]; simpl; eexists _, _;
      (split; [done|]); (split; [apply lookup_locals_last|]);
      (split; [done|]); (split; [done|]); by repeat constructor. }
  unfold bind at 1 in Hrun.
  rewrite (make_sampling_params_unfold gen _ st1 Hgen) in Hrun.
  set (g := generation_options d) in *.
  destruct (SamplingParams env g (world st1)) as [[e|] w2]; simpl in Hrun.
  { injection Hrun as <- <-. split; [|intros rs [=]].
    unfold upd. simpl. rewrite Htr, <- app_assoc. eexists. split; [reflexivity|].
    no_log. }
  unfold bind at 1 in Hrun. unfold render_prompts in Hrun.
  match type of Hrun with
  | context [ for_each ?f messages [] ?s ] =>
      destruct (for_each f messages [] s) as [[prompts|e] st3] eqn:Hloop;
      destruct (render_prompts_loop _ _ _ _ _ _ _ Hloop) as (w3 & evs3 & -> & Hev3 & Hps)
  end.
  2: { injection Hrun as <- <-. split; [|intros rs [=]].
       unfold upd. simpl. rewrite Htr, <- !app_assoc. eexists. split; [reflexivity|].
       no_log. }
  destruct (Hps prompts eq_refl) as (new_prompts & Heq & Hrendered).
  simpl in Heq. subst new_prompts.
  unfold bind at 1 in Hrun. unfold generate_or_raise, call in Hrun.
  rewrite upd_upd in Hrun. simpl in Hrun.
  destruct (generate env engine (ManyPrompts prompts) (SamplingParamsOf g) w3)
    as [[outs|e] w4] eqn:Hg; simpl in Hrun.
  2: { injection Hrun as <- <-. split; [|intros rs [=]].
       unfold with_world, log, upd. simpl. rewrite Htr, <- !app_assoc. eexists.
       split; [reflexivity|]. no_log. }
  unfold collect_responses in Hrun.
  destruct (collect_responses_loop _ _ _ _ _ _ Hrun) as (_ & _ & [n Hn] & Hrs).
  split.
  - rewrite Hn. unfold with_world, log, upd. simpl. rewrite Htr, <- !app_assoc.
    eexists. split; [reflexivity|]. no_log.
  - intros rs Hret. destruct (Hrs rs Hret) as (new & Hnew & -> & Hpop).
    simpl in Hnew. rewrite Hresp in Hnew. simpl. rewrite Hresp.
    by exists engine, prompts, w3, w4, outs, new.
Qed.

(** ** Theorems about [completion] and [batch_completions] *)

Lemma populated_from_usage (model : string) (output : RequestOutput)
    (resp : ModelResponse) :
  populated_from model output resp →
  ∃ candidate u,
    outputs output !! 0 = Some candidate
    ∧ usage resp = Some u
    ∧ prompt_tokens u = py_len (prompt_token_ids output)
    ∧ completion_tokens u = py_len (token_ids candidate)
    ∧ total_tokens u = (prompt_tokens u + completion_tokens u)%Z.
Proof.
  intros (candidate & rest & now & u & Hc & _ & _ & _ & Hu & Hp & Hq & Ht).
  by exists candidate, u.
Qed.

(** The responses of a batch, one by one. *)
Lemma batch_responses_lookup (model : string) (outs : list RequestOutput)
    (old new : list ModelResponse) (i : nat) (r : resp_ref) :
  Forall2 (populated_from model) outs new →
  seq (length old) (length outs) !! i = Some r →
  ∃ output resp,
    outs !! i = Some output ∧ (old ++ new) !! r = Some resp
    ∧ populated_from model output resp.
Proof.
  intros Hpop Hi. apply lookup_seq in Hi as [-> Hlt].
  destruct (lookup_lt_is_Some_2 outs i Hlt) as [output Ho].
  destruct (Forall2_lookup_l _ _ _ _ _ Hpop Ho) as (resp & Hr & Hp).
  exists output, resp. split; [done|]. split; [|done].
  by rewrite lookup_app_add.
Qed.

(** C3: token accounting.  Whenever [completion] returns a response
    object, that object's usage record holds the length of the prompt
    token ids of the first engine output, the length of the token ids of
    that output's first candidate, and their sum as the total.  Whenever
    [batch_completions] returns, the same holds for every response in the
    batch, each with the engine output at its own position. *)
Theorem usage_accounting (model : string) (op : option dict_ref)
    (cpd : gmap string Dict) (d : Dict) (st : State W) :
  caller_dict st op = Some d →
  (∀ messages mr pv lg r st',
     completion env model messages mr pv lg op cpd st = (Returns (RetResponse r), st') →
     ∃ engine prompt sp w w' outs output candidate resp u,
       generate env engine (OnePrompt prompt) sp w = (Returns outs, w')
       ∧ outs !! 0 = Some output
       ∧ outputs output !! 0 = Some candidate
       ∧ responses st' !! r = Some resp
       ∧ usage resp = Some u
       ∧ prompt_tokens u = py_len (prompt_token_ids output)
       ∧ completion_tokens u = py_len (token_ids candidate)
       ∧ total_tokens u = (prompt_tokens u + completion_tokens u)%Z)
  ∧ (∀ messages rs st',
       batch_completions env model messages op cpd st = (Returns rs, st') →
       ∃ engine prompts sp w w' outs,
         generate env engine (ManyPrompts prompts) sp w = (Returns outs, w')
         ∧ ∀ i r, rs !! i = Some r →
             ∃ output candidate resp u,
               outs !! i = Some output
               ∧ outputs output !! 0 = Some candidate
               ∧ responses st' !! r = Some resp
               ∧ usage resp = Some u
               ∧ prompt_tokens u = py_len (prompt_token_ids output)
               ∧ completion_tokens u = py_len (token_ids candidate)
               ∧ total_tokens u = (prompt_tokens u + completion_tokens u)%Z).
Proof.
  intros Hd. split.
  - intros messages mr pv lg r st' Hrun.
    destruct (completion_returns_response _ _ _ _ _ _ _ _ _ _ _ Hd Hrun)
      as (-> & _ & engine & prompt & w & w' & outs & output & resp & pre
          & Hg & Ho & Hr & Hpop & _).
    destruct (populated_from_usage _ _ _ Hpop) as (candidate & u & Hc & Hu & Hp & Hq & Ht).
    by exists engine, prompt, (SamplingParamsOf (generation_options d)), w, w', outs,
      output, candidate, resp, u.
  - intros messages rs st' Hrun.
    destruct (batch_completions_run _ _ _ _ _ _ _ _ Hd Hrun) as (_ & Hret).
    destruct (Hret rs eq_refl)
      as (engine & prompts & w & w' & outs & new & _ & Hg & Hresp & -> & Hpop).
    exists engine, prompts, (SamplingParamsOf (generation_options d)), w, w', outs.
    split; [done|]. intros i r Hi.
    destruct (batch_responses_lookup _ _ (responses st) _ _ _ Hpop Hi)
      as (output & resp & Ho & Hr & Hp1).
    destruct (populated_from_usage _ _ _ Hp1) as (candidate & u & Hc & Hu & Hp & Hq & Ht).
    exists output, candidate, resp, u. by rewrite Hresp.
Qed.

(** C5: a batch returns one response per engine output, in the engine's
    order, each a new object filled from the output at its own position
    and from nothing else; the engine receives one prompt per message
    list, in input order.  So with an engine that answers every prompt
    once, in order, the batch has one response per input message list:
    the i-th response belongs to the i-th message list. *)
Theorem batch_one_response_per_input (model : string)
    (messages : list (list PyVal)) (op : option dict_ref)
    (cpd : gmap string Dict) (d : Dict) (st st' : State W) (rs : list resp_ref) :
  one_output_per_prompt env →
  caller_dict st op = Some d →
  batch_completions env model messages op cpd st = (Returns rs, st') →
  length rs = length messages
  ∧ NoDup rs
  ∧ (∀ r, r ∈ rs → responses st !! r = None)
  ∧ ∃ engine prompts w w' outs,
      generate env engine (ManyPrompts prompts)
        (SamplingParamsOf (generation_options d)) w = (Returns outs, w')
      ∧ length rs = length outs
      ∧ ∀ i r, rs !! i = Some r →
          ∃ message prompt output resp,
            messages !! i = Some message
            ∧ prompts !! i = Some prompt
            ∧ rendered env model cpd message prompt
            ∧ outs !! i = Some output
            ∧ responses st' !! r = Some resp
            ∧ populated_from model output resp.
Proof.
  intros Hcontract Hd Hrun.
  destruct (batch_completions_run _ _ _ _ _ _ _ _ Hd Hrun) as (_ & Hret).
  destruct (Hret rs eq_refl)
    as (engine & prompts & w & w' & outs & new & Hren & Hg & Hresp & -> & Hpop).
  assert (length outs = length prompts) as Hlen.
  { apply (Hcontract engine prompts (SamplingParamsOf (generation_options d)) w).
    by rewrite Hg. }
  pose proof (Forall2_length _ _ _ Hren) as Hlen'.
  rewrite length_seq. split; [lia|]. split; [apply NoDup_seq|]. split.
  - intros r Hr. apply elem_of_seq in Hr. apply lookup_ge_None. lia.
  - exists engine, prompts, w, w', outs. split; [done|]. split; [done|].
    intros i r Hi.
    destruct (batch_responses_lookup _ _ (responses st) _ _ _ Hpop Hi)
      as (output & resp & Ho & Hr & Hp).
    apply lookup_seq in Hi as [-> Hlt].
    destruct (lookup_lt_is_Some_2 messages i) as [message Hm]; [lia|].
    destruct (Forall2_lookup_l _ _ _ _ _ Hren Hm) as (prompt & Hpr & Hrend).
    exists message, prompt, output, resp. by rewrite Hresp.
Qed.

(** C6: streaming.  When the generation options ask for streaming, a
    [completion] that returns hands back [iter(outputs)] on the very list
    the engine returned: an iterator that yields that list once, in order,
    and is exhausted afterwards.  No response object is touched, and
    nothing follows the engine call: no post-call log event, no printing,
    no clock reading.  With cooperative collaborators the call does
    return. *)
Theorem streaming_returns_raw_iterator (model : string) (messages : list PyVal)
    (mr : resp_ref) (pv : Printer W) (lg : Logging W) (op : option dict_ref)
    (cpd : gmap string Dict) (d : Dict) (st : State W) :
  caller_dict st op = Some d →
  stream_requested (generation_options d) = true →
  (∀ res st',
     completion env model messages mr pv lg op cpd st = (Returns res, st') →
     ∃ engine prompt w w' outs pre,
       let sp := SamplingParamsOf (generation_options d) in
       generate env engine (OnePrompt prompt) sp w = (Returns outs, w')
       ∧ res = RetIterator (py_iter outs)
       ∧ responses st' = responses st
       ∧ trace st' = trace st ++ pre
                     ++ [EvPreCall prompt EmptyString sp; EvGenerate engine (OnePrompt prompt) sp]
       ∧ Forall (λ ev, is_log_event ev = false ∧ is_generate_event ev = false) pre
       ∧ (drain (length outs) (py_iter outs)).1 = outs
       ∧ py_next (drain (length outs) (py_iter outs)).2
         = (None, (drain (length outs) (py_iter outs)).2))
  ∧ (cooperative env lg pv model cpd →
     ∃ res, (completion env model messages mr pv lg op cpd st).1 = Returns res).
Proof.
  intros Hd Hs. split.
  - intros res st' Hrun. destruct res as [it | r].
    + destruct (completion_returns_iterator _ _ _ _ _ _ _ _ _ _ _ Hd Hrun)
        as (_ & engine & prompt & w & w' & outs & pre & Hg & -> & Hresp & Htr & Hpre).
      exists engine, prompt, w, w', outs, pre.
      rewrite drain_py_iter. simpl. by rewrite py_next_exhausted.
    + destruct (completion_returns_response _ _ _ _ _ _ _ _ _ _ _ Hd Hrun)
        as (_ & Hns & _). congruence.
  - intros Hco. apply (completion_cooperative _ _ _ _ _ _ _ _ _ Hco Hd). by left.
Qed.

(** C9: streaming is chosen exactly when the options hold ["stream"] with
    the value [True] itself.  A [completion] that returns hands back an
    iterator in that case and in no other; for any other value of
    ["stream"], or none, it hands back the caller's response object,
    filled from the first engine output.  With cooperative collaborators
    and a response object that has a first choice, the call does
    return. *)
Theorem stream_only_when_True (model : string) (messages : list PyVal)
    (mr : resp_ref) (pv : Printer W) (lg : Logging W) (op : option dict_ref)
    (cpd : gmap string Dict) (d : Dict) (st : State W) :
  caller_dict st op = Some d →
  (stream_requested (generation_options d) = true ↔ d !! "stream" = Some (VBool true))
  ∧ (∀ res st',
       completion env model messages mr pv lg op cpd st = (Returns res, st') →
       (d !! "stream" = Some (VBool true) → ∃ it, res = RetIterator it)
       ∧ (d !! "stream" ≠ Some (VBool true) →
            res = RetResponse mr
            ∧ ∃ engine prompt sp w w' outs output resp,
                generate env engine (OnePrompt prompt) sp w = (Returns outs, w')
                ∧ outs !! 0 = Some output
                ∧ responses st' !! mr = Some resp
                ∧ populated_from model output resp))
  ∧ (cooperative env lg pv model cpd →
     (∃ resp0 c0 rest, responses st !! mr = Some resp0 ∧ choices resp0 = c0 :: rest) →
     ∃ res, (completion env model messages mr pv lg op cpd st).1 = Returns res).
Proof.
  intros Hd.
  assert (stream_requested (generation_options d) = true
          ↔ d !! "stream" = Some (VBool true)) as Hiff.
  { rewrite stream_requested_generation_options. apply stream_requested_True. }
  split; [exact Hiff|]. split.
  - intros res st' Hrun. destruct res as [it | r].
    + destruct (completion_returns_iterator _ _ _ _ _ _ _ _ _ _ _ Hd Hrun) as (Hs & _).
      split; [by eexists|]. intros Hn. by apply Hiff in Hs.
    + destruct (completion_returns_response _ _ _ _ _ _ _ _ _ _ _ Hd Hrun)
        as (-> & Hns & engine & prompt & w & w' & outs & output & resp & pre
            & Hg & Ho & Hr & Hpop & _).
      split.
      * intros Hy. apply Hiff in Hy. congruence.
      * intros _. split; [done|].
        by exists engine, prompt, (SamplingParamsOf (generation_options d)), w, w',
          outs, output, resp.
  - intros Hco Hresp. apply (completion_cooperative _ _ _ _ _ _ _ _ _ Hco Hd). by right.
Qed.

(** Every run of [completion], whatever its outcome: once the pre-call
    event is logged, either the logging call itself raised, or the engine
    is called. *)
Lemma completion_reaches_generate (model : string) (messages : list PyVal)
    (mr : resp_ref) (pv : Printer W) (lg : Logging W) (op : option dict_ref)
    (cpd : gmap string Dict) (d : Dict) (st st' : State W)
    (o : Outcome CompletionResult) :
  caller_dict st op = Some d →
  completion env model messages mr pv lg op cpd st = (o, st') →
  ∃ evs, trace st' = trace st ++ evs
         ∧ ∀ i k sp, EvPreCall i k sp ∈ evs →
             (∃ e, EvGenerate e (OnePrompt i) sp ∈ evs)
             ∨ (∃ w x, (pre_call lg i k sp w).1 = Some x ∧ o = Raises x).
Proof.
  intros Hd Hrun. run_completion Hd.
  all: rewrite <- ?app_assoc; eexists; (split; [reflexivity|]).
  all: intros i k sp Hin.
  all: repeat first
         [ apply elem_of_app in Hin as [Hin | Hin]
         | apply elem_of_cons in Hin as [Hin | Hin]
         | apply elem_of_nil in Hin; destruct Hin ];
       try discriminate.
  all: try (rewrite Forall_forall in Hev; specialize (Hev _ Hin); discriminate).
  all: injection Hin as -> -> ->.
  all: first
         [ left; eexists; rewrite !elem_of_app, !elem_of_cons; by eauto 10
         | right; eexists _, _;
           match goal with
           | H : pre_call _ _ _ _ _ = (Some _, _) |- _ => rewrite H
           end; by split ].
Qed.

(** C7: the check before the engine call.  Without a handle, lines 96-101
    raise the adapter's error with status 0 and call nothing.  A
    [validate_environment] that returns always returns a handle, which is
    also the value of the global; with it, lines 96-101 are the engine
    call.  So in every run of [completion], whatever its outcome, once the
    pre-call event is logged either the logging call itself raised or the
    engine is called. *)
Theorem engine_available_at_generate (model : string) (op : option dict_ref)
    (d : Dict) (st : State W) :
  caller_dict st op = Some d →
  (∀ prompts sp (s : State W),
     generate_or_raise env None prompts sp s
     = (Raises (VLLMError 0 "Need to pass in a model name to initialize vllm"), s))
  ∧ (∀ h gen st1,
       validate_environment env model op st = (Returns (h, gen), st1) →
       ∃ e, h = Some e ∧ llm st1 = Some e
            ∧ ∀ prompts sp (s : State W),
                generate_or_raise env h prompts sp s
                = call (EvGenerate e prompts sp) (generate env e prompts sp) s)
  ∧ (∀ messages mr pv lg cpd o st',
       completion env model messages mr pv lg op cpd st = (o, st') →
       ∃ evs, trace st' = trace st ++ evs
              ∧ ∀ i k sp, EvPreCall i k sp ∈ evs →
                  (∃ e, EvGenerate e (OnePrompt i) sp ∈ evs)
                  ∨ (∃ w x, (pre_call lg i k sp w).1 = Some x ∧ o = Raises x)).
Proof.
  intros Hd. split; [done|]. split.
  - intros h gen st1. run_validate Hd; intros [= <- _ <-]; by eexists.
  - intros messages mr pv lg cpd o st' Hrun.
    by apply (completion_reaches_generate _ _ _ _ _ _ _ _ _ _ _ Hd Hrun).
Qed.

(** C8: the batch path logs nothing.  No run of [batch_completions],
    whatever its outcome, adds a pre-call or a post-call event to the
    trace.  The single path does: a [completion] that returns a response
    object has logged the pre-call event before the engine call and the
    post-call event after it. *)
Theorem batch_emits_no_log_events (model : string) (op : option dict_ref)
    (cpd : gmap string Dict) (d : Dict) (st : State W) :
  caller_dict st op = Some d →
  (∀ messages,
     ∃ evs, trace (batch_completions env model messages op cpd st).2 = trace st ++ evs
            ∧ Forall (λ ev, is_log_event ev = false) evs)
  ∧ (∀ messages mr pv lg r st',
       completion env model messages mr pv lg op cpd st = (Returns (RetResponse r), st') →
       ∃ engine prompt sp outs pre post,
         trace st' = trace st ++ pre
                     ++ [EvPreCall prompt EmptyString sp; EvGenerate engine (OnePrompt prompt) sp;
                         EvPostCall prompt EmptyString outs sp] ++ post
         ∧ Forall (λ ev, is_log_event ev = false) pre
         ∧ Forall (λ ev, is_log_event ev = false) post).
Proof.
  intros Hd. split.
  - intros messages.
    destruct (batch_completions env model messages op cpd st) as [o st'] eqn:Hrun.
    by destruct (batch_completions_run _ _ _ _ _ _ _ _ Hd Hrun) as (Hev & _).
  - intros messages mr pv lg r st' Hrun.
    destruct (completion_returns_response _ _ _ _ _ _ _ _ _ _ _ Hd Hrun)
      as (_ & _ & engine & prompt & w & w' & outs & output & resp & pre
          & _ & _ & _ & _ & _ & Htr & Hpre).
    exists engine, prompt, (SamplingParamsOf (generation_options d)), outs, pre,
      [EvPrintVerbose outs; EvTime].
    split; [exact Htr|]. split.
    + eapply Forall_impl; [exact Hpre|]. by intros ev [? _].
    + by repeat constructor.
Qed.




(** ** More about the split of the options *)

(** X11: nothing of the caller's dict is lost or doubled by lines 49-50:
    the entries kept for construction and the generation options handed
    back share no key, and together they are the caller's dict.  The
    construction options are the kept entries laid over the defaults. *)
Theorem split_recombines (d : Dict) :
  dict_keep default_params d ∪ generation_options d = d
  ∧ dict_keep default_params d ##ₘ generation_options d
  ∧ construction_options d = dict_keep default_params d ∪ default_params
  ∧ dom (construction_options d) = dom default_params.
Proof.
  unfold generation_options, dict_keep, dict_drop, construction_options, dict_merge.
  split; [apply map_filter_union_complement|].
  split; [apply map_disjoint_filter_complement|].
  split; [done|].
  apply set_eq. intros k. rewrite dom_union, elem_of_union, !elem_of_dom.
  split; [|by right].
  intros [[v Hv] | Hk]; [|done].
  apply map_lookup_filter_Some in Hv as [_ Hin]. exact Hin.
Qed.

(** The reference handed back is to an object made during the call. *)
Lemma validate_environment_returns_fresh (model : string) (op : option dict_ref)
    (d : Dict) (st st' : State W) (h : option Engine) (g : dict_ref) :
  caller_dict st op = Some d →
  validate_environment env model op st = (Returns (h, g), st') →
  (length (dicts st) ≤ g)%nat.
Proof.
  intros Hd. run_validate Hd; intros [= _ <- _]; lia.
Qed.

(** X12: the options [validate_environment] hands back are a fixed point
    of the split.  Passed in again, they come back as a new dict object
    with the same entries, nothing of them reaches the construction
    options, and the engine handle is the same. *)
Theorem returned_options_are_stable (model model' : string) (op : option dict_ref)
    (d : Dict) (st st1 st2 : State W) (h h' : option Engine) (g g' : dict_ref) :
  caller_dict st op = Some d →
  validate_environment env model op st = (Returns (h, g), st1) →
  validate_environment env model' (Some g) st1 = (Returns (h', g'), st2) →
  dicts st1 !! g = Some (generation_options d)
  ∧ dicts st2 !! g' = Some (generation_options d)
  ∧ dicts st2 !! g = Some (generation_options d)
  ∧ g' ≠ g
  ∧ h' = h
  ∧ construction_options (generation_options d) = default_params.
Proof.
  intros Hd Hrun1 Hrun2.
  assert (generation_options (generation_options d) = generation_options d) as Hidem.
  { unfold generation_options, dict_drop. apply map_filter_filter_l. tauto. }
  assert (dict_keep default_params (generation_options d) = ∅) as Hkeep.
  { apply map_eq. intros k. rewrite lookup_empty.
    unfold dict_keep, generation_options, dict_drop.
    apply map_lookup_filter_None. right. intros v Hv Hin.
    apply map_lookup_filter_Some in Hv as [_ Hout]. by apply Hout. }
  destruct (validate_environment_split model op d st Hd) as (Hgen & _).
  assert (dicts st1 !! g = Some (generation_options d)) as Hg.
  { specialize (Hgen h g). rewrite Hrun1 in Hgen. by apply Hgen. }
  assert (caller_dict st1 (Some g) = Some (generation_options d)) as Hd1 by exact Hg.
  destruct (validate_environment_split model' (Some g) _ st1 Hd1) as (Hgen' & _).
  assert (∃ e, h = Some e ∧ llm st1 = Some e) as (e & -> & He).
  { revert Hrun1. run_validate Hd; intros [= <- _ <-]; by eexists. }
  destruct (validate_environment_engine_exists model' (Some g) _ e st1 He Hd1)
    as (_ & Hsame & _).
  destruct (validate_environment_keeps_dicts model' (Some g) _ st1 Hd1) as [fresh Hfresh].
  pose proof Hrun2 as Hrun2'.
  rewrite Hrun2 in Hfresh, Hgen', Hsame. simpl in *.
  split; [exact Hg|]. split; [|split; [|split; [|split]]].
  - rewrite (Hgen' h' g' eq_refl). by rewrite Hidem.
  - rewrite Hfresh. by apply lookup_app_l_Some.
  - intros ->. apply lookup_lt_Some in Hg.
    pose proof (validate_environment_returns_fresh model' (Some g)
                  (generation_options d) st1 st2 h' g Hd1 Hrun2). lia.
  - by apply (Hsame h' g').
  - unfold construction_options, dict_merge. rewrite Hkeep. apply (left_id_L ∅ (∪)).
Qed.

(** ** Failure of engine resolution, seen from the callers *)

(** Whatever [validate_environment] raises is the adapter's error with
    status 0, and the second [try] of the callers hands it on as it is,
    with nothing else done. *)
Lemma resolution_failure_passes_through (model : string) (op : option dict_ref)
    (st st1 : State W) (x : PyExc) :
  validate_environment env model op st = (Raises x, st1) →
  (∃ m, x = VLLMError 0 m)
  ∧ (∀ messages mr pv lg cpd,
       completion env model messages mr pv lg op cpd st = (Raises x, st1))
  ∧ (∀ messages cpd,
       batch_completions env model messages op cpd st = (Raises x, st1)).
Proof.
  intros Hrun.
  assert (∃ m, x = VLLMError 0 m) as [m ->].
  { revert Hrun. unfold validate_environment, try_except.
    match goal with |- context [ match ?run st with _ => _ end ] => destruct (run st) as [[?|?] ?] end;
      [done|]. unfold raise. intros [= <- _]. by eexists. }
  split; [by eexists|]. split.
  - intros. unfold completion. unfold bind at 1. unfold try_except. unfold bind at 1.
    by rewrite Hrun.
  - intros. unfold batch_completions. unfold bind at 1. unfold try_except.
    by rewrite Hrun.
Qed.


(** X2: a failed construction is not remembered.  When the [LLM]
    constructor raises, the global stays [None], also after [completion]
    and [batch_completions]; the next call whose import succeeds runs the
    constructor again, with its own model identifier and options. *)
Theorem failed_construction_is_retried (model model' : string)
    (op op' : option dict_ref) (d d' : Dict) (st : State W) (x : PyExc) :
  caller_dict st op = Some d →
  llm st = None →
  (import_vllm env (world st)).1 = None →
  (LLM env model (construction_options d) (import_vllm env (world st)).2).1 = Raises x →
  llm (validate_environment env model op st).2 = None
  ∧ (∀ messages mr pv lg cpd,
       llm (completion env model messages mr pv lg op cpd st).2 = None)
  ∧ (∀ messages cpd, llm (batch_completions env model messages op cpd st).2 = None)
  ∧ (caller_dict (validate_environment env model op st).2 op' = Some d' →
     (import_vllm env (world (validate_environment env model op st).2)).1 = None →
     ∃ evs,
       trace (validate_environment env model' op' (validate_environment env model op st).2).2
       = trace (validate_environment env model op st).2 ++ evs
       ∧ EvLLM model' (construction_options d') ∈ evs).
Proof.
  intros Hd Hl Himp HLLM.
  destruct (validate_environment env model op st) as [o st1] eqn:Hrun.
  assert (llm st1 = None ∧ ∃ y, o = Raises y) as [Hl1 [y ->]].
  { revert Hrun. run_validate Hd; simplify_eq/=.
    - match goal with H : LLM _ _ _ _ = _ |- _ => rewrite H in HLLM end. discriminate.
    - intros [= <- <-]. split; [done|]. by eexists. }
  destruct (resolution_failure_passes_through model op st st1 y Hrun) as (_ & Hc & Hb).
  simpl. split; [exact Hl1|]. split; [|split].
  - intros. by rewrite Hc.
  - intros. by rewrite Hb.
  - intros Hd' Himp'.
    destruct (validate_environment_split model' op' d' st1 Hd') as (_ & evs & Htr & _ & Hin).
    exists evs. split; [exact Htr|]. by apply Hin.
Qed.

(** ** What a run leaves of the process state *)

Lemma completion_frame (model : string) (messages : list PyVal)
    (mr : resp_ref) (pv : Printer W) (lg : Logging W) (op : option dict_ref)
    (cpd : gmap string Dict) (d : Dict) (st st' : State W)
    (o : Outcome CompletionResult) :
  caller_dict st op = Some d →
  completion env model messages mr pv lg op cpd st = (o, st') →
  (∀ e, llm st = Some e → llm st' = Some e)
  ∧ (∃ fresh, dicts st' = dicts st ++ fresh)
  ∧ length (responses st') = length (responses st)
  ∧ (∀ r0, r0 ≠ mr → responses st' !! r0 = responses st !! r0)
  ∧ ((∀ r, o ≠ Returns (RetResponse r)) → responses st' = responses st)
  ∧ (∀ r, o = Returns (RetResponse r) →
       ∃ resp0 c0 rest candidate resp,
         r = mr
         ∧ responses st !! mr = Some resp0
         ∧ choices resp0 = c0 :: rest
         ∧ responses st' !! mr = Some resp
         ∧ choices resp
           = {| message := {| content := Some (text candidate) |} |} :: rest).
Proof.
  intros Hd Hrun. run_completion Hd.
  all: split; [by intros ? [= <-] || done|].
  all: split; [first [ by eexists | exists []; by rewrite app_nil_r ]|].
  all: split; [by rewrite ?length_insert|].
  all: split; [intros r0 Hr0; by rewrite ?list_lookup_insert_ne|].
  all: split; [first [ done | intros Hno; by destruct (Hno _ eq_refl) ]|].
  all: intros r0 Hr0; try discriminate.
  all: injection Hr0 as <-.
  all: match goal with
       | Hm : responses _ !! ?r = Some ?m, Hc : choices ?m = ?c :: ?rest,
         Ho : outputs _ = ?cand :: _ |- _ =>
           exists m, c, rest, cand; eexists; split; [done|]; split; [exact Hm|];
           split; [exact Hc|]; split;
             [apply list_lookup_insert_eq; by eapply lookup_lt_Some | done]
       end.
Qed.

(** The second loop of the batch, whatever its outcome. *)
Lemma collect_responses_loop_any (model : string) (outs : list RequestOutput) :
  ∀ (acc : list resp_ref) (st st' : State W) (o : Outcome (list resp_ref)),
    for_each (λ final_outputs output,
                model_response <- new_response ModelResponse_new ;;
                populate env model model_response output ;;;
                ret (final_outputs ++ [model_response])) outs acc st = (o, st') →
    llm st' = llm st
    ∧ dicts st' = dicts st
    ∧ ∃ new n,
        responses st' = responses st ++ new
        ∧ trace st' = trace st ++ repeat EvTime n
        ∧ (n ≤ length outs)%nat
        ∧ ((o = Raises IndexError ∧ Exists (λ out, outputs out = []) outs)
           ∨ (∃ rs, o = Returns rs ∧ Forall (λ out, outputs out ≠ []) outs
                    ∧ n = length outs ∧ length new = length outs)).
Proof.
  induction outs as [|output outs IH]; intros acc st st' o Hrun; simpl in Hrun.
  - injection Hrun as <- <-. split; [done|]. split; [done|].
    exists [], 0%nat. simpl. rewrite !app_nil_r. repeat split; try done.
    right. exists acc. by repeat split.
  - unfold bind at 1 2 in Hrun. unfold new_response at 1 in Hrun.
    unfold bind at 1 in Hrun. rewrite populate_unfold in Hrun.
    unfold populate_flat in Hrun. simpl in Hrun.
    rewrite lookup_app_len in Hrun. simpl in Hrun.
    destruct (outputs output) as [|candidate cs] eqn:Hc; simpl in Hrun.
    { injection Hrun as <- <-. simpl. split; [done|]. split; [done|].
      exists [ModelResponse_new], 0%nat. simpl. rewrite app_nil_r.
      repeat split; try done; try lia. left. split; [done|]. by left. }
    destruct (time_time env (world st)) as [now w1]. unfold ret at 1 in Hrun.
    rewrite insert_app_r_alt, Nat.sub_diag in Hrun by lia. simpl in Hrun.
    destruct (IH _ _ _ _ Hrun) as (Hl & Hd & new & n & Hresp & Ht & Hn & Hout).
    simpl in *. rewrite Hl, Hd. split; [done|]. split; [done|].
    exists (filled model now output candidate [] :: new), (S n).
    rewrite Hresp, Ht, <- !app_assoc. simpl.
    split; [done|]. split; [done|]. split; [lia|].
    destruct Hout as [[-> Hex] | (rs & -> & Hall & -> & Hlen)].
    + left. split; [done|]. by right.
    + right. exists rs. split; [done|]. split; [|by rewrite Hlen].
      constructor; [|done]. by rewrite Hc.
Qed.

(** A run of [batch_completions], by the place where it ended. *)
Lemma batch_completions_phases (model : string) (messages : list (list PyVal))
    (op : option dict_ref) (cpd : gmap string Dict) (d : Dict)
    (st st' : State W) (o : Outcome (list resp_ref)) :
  caller_dict st op = Some d →
  batch_completions env model messages op cpd st = (o, st') →
  let g := generation_options d in
  let sp := SamplingParamsOf g in
  (∀ e, llm st = Some e → llm st' = Some e)
  ∧ (∃ fresh, dicts st' = dicts st ++ fresh)
  ∧ (∃ new, responses st' = responses st ++ new)
  ∧ ∃ pre,
      Forall (λ ev, is_resolve_event ev = true) pre
      ∧ (count_events is_LLM_event pre ≤ 1)%nat
      ∧ ((∃ m, o = Raises (VLLMError 0 m) ∧ trace st' = trace st ++ pre
               ∧ responses st' = responses st)
         ∨ (∃ w x, (SamplingParams env g w).1 = Some x ∧ o = Raises x
                   ∧ trace st' = trace st ++ pre ++ [EvSamplingParams g]
                   ∧ responses st' = responses st)
         ∨ (∃ w0 x evs, (SamplingParams env g w0).1 = None
                     ∧ o = Raises x
                     ∧ Forall (λ ev, is_prompt_event ev = true) evs
                     ∧ trace st' = trace st ++ pre ++ [EvSamplingParams g] ++ evs
                     ∧ responses st' = responses st)
         ∨ (∃ w0 e prompts evs w w' r n,
              (SamplingParams env g w0).1 = None
              ∧ Forall2 (rendered env model cpd) messages prompts
              ∧ Forall (λ ev, is_prompt_event ev = true) evs
              ∧ generate env e (ManyPrompts prompts) sp w = (r, w')
              ∧ trace st' = trace st ++ pre ++ [EvSamplingParams g] ++ evs
                            ++ [EvGenerate e (ManyPrompts prompts) sp]
                            ++ repeat EvTime n
              ∧ match r with
                | Raises x => o = Raises x ∧ n = 0%nat ∧ responses st' = responses st
                | Returns outs =>
                    (n ≤ length outs)%nat
                    ∧ ((o = Raises IndexError
                        ∧ Exists (λ out, outputs out = []) outs)
                       ∨ (∃ rs, o = Returns rs
                                ∧ Forall (λ out, outputs out ≠ []) outs
                                ∧ n = length outs))
                end)).
Proof.
  intros Hd Hrun g sp. subst sp. unfold batch_completions in Hrun.
  unfold bind at 1 in Hrun. unfold try_except in Hrun.
  rewrite (validate_environment_unfold model op d st Hd) in Hrun.
  destruct (validate_environment_flat env model op d st) as [[[h gen]|e0] st1] eqn:Hv.
  2: { injection Hrun as <- <-. revert Hv. unfold validate_environment_flat.
       destruct (import_vllm env (world st)) as [[?|] w1].
       - intros [= _ <-]. simpl. split; [done|].
         split; [exists []; by rewrite app_nil_r|].
         split; [exists []; by rewrite app_nil_r|].
         exists [EvImport]. split; [by repeat constructor|].
         split; [unfold count_events; simpl; lia|]. left. by eexists.
       - destruct (llm st) eqn:Hl; [done|].
         destruct (LLM env model _ w1) as [[?|?] w2]; intros [= _ <-]; simpl.
         split; [intros e1 He1; congruence|]. split; [by eexists|].
         split; [exists []; by rewrite app_nil_r|].
         exists [EvImport; EvLLM model (construction_options d)].
         split; [by repeat constructor|].
         split; [unfold count_events; simpl; lia|]. left. by eexists. }
  assert (∃ engine pre,
            h = Some engine ∧ llm st1 = Some engine
            ∧ (∀ e, llm st = Some e → e = engine)
            ∧ dicts st1 !! gen = Some g
            ∧ (∃ fresh, dicts st1 = dicts st ++ fresh)
            ∧ responses st1 = responses st
            ∧ trace st1 = trace st ++ pre
            ∧ Forall (λ ev, is_resolve_event ev = true) pre
            ∧ (count_events is_LLM_event pre ≤ 1)%nat)
    as (engine & pre & -> & Hl1 & Hsame & Hgen & Hfresh & Hresp & Htr & Hpre & Hcount).
  { revert Hv. unfold validate_environment_flat.
    destruct (import_vllm env (world st)) as [[?|] w1]; [done|].
    destruct (llm st) eqn:Hl; [|destruct (LLM env model _ w1) as [[?|?] w2]];
      intros [= <- <- <-]; simpl; eexists _, _;
      (split; [done|]); (split; [done|]);
      (split; [by intros ? [= <-] || done|]);
      (split; [apply lookup_locals_last|]);
      (split; [by eexists|]); (split; [done|]); (split; [reflexivity|]);
      (split; [by repeat constructor|]); unfold count_events; simpl; lia. }
  unfold bind at 1 in Hrun.
  rewrite (make_sampling_params_unfold gen _ st1 Hgen) in Hrun.
  destruct (SamplingParams env g (world st1)) as [[x|] w2] eqn:Hsp; simpl in Hrun.
  { injection Hrun as <- <-. unfold upd. simpl.
    split; [intros e He; by rewrite (Hsame e He)|]. split; [done|].
    split; [exists []; by rewrite app_nil_r, Hresp|].
    exists pre. split; [done|]. split; [done|]. right. left. exists (world st1), x.
    rewrite Hsp, Htr, <- app_assoc. by repeat split. }
  unfold bind at 1 in Hrun. unfold render_prompts in Hrun.
  match type of Hrun with
  | context [ for_each ?f messages [] ?s ] =>
      destruct (for_each f messages [] s) as [[prompts|x] st3] eqn:Hloop;
      destruct (render_prompts_loop _ _ _ _ _ _ _ Hloop) as (w3 & evs3 & -> & Hev3 & Hps)
  end.
  2: { injection Hrun as <- <-. unfold upd. simpl.
       split; [intros e He; by rewrite (Hsame e He)|]. split; [done|].
       split; [exists []; by rewrite app_nil_r, Hresp|].
       exists pre. split; [done|]. split; [done|]. right. right. left. exists (world st1), x, evs3.
       rewrite Hsp, Htr, <- !app_assoc. by repeat split. }
  destruct (Hps prompts eq_refl) as (new_prompts & Heq & Hrendered).
  simpl in Heq. subst new_prompts.
  unfold bind at 1 in Hrun. unfold generate_or_raise, call in Hrun.
  rewrite upd_upd in Hrun. simpl in Hrun.
  destruct (generate env engine (ManyPrompts prompts) (SamplingParamsOf g) w3)
    as [[outs|x] w4] eqn:Hg; simpl in Hrun.
  2: { injection Hrun as <- <-. unfold with_world, log, upd. simpl.
       split; [intros e He; by rewrite (Hsame e He)|]. split; [done|].
       split; [exists []; by rewrite app_nil_r, Hresp|].
       exists pre. split; [done|]. split; [done|]. right. right. right.
       exists (world st1), engine, prompts, evs3, w3, w4, (Raises x), 0%nat.
       rewrite Hsp, Hg, Htr, <- !app_assoc. simpl. by repeat split. }
  unfold collect_responses in Hrun.
  destruct (collect_responses_loop_any _ _ _ _ _ _ Hrun)
    as (Hl & Hdi & new & n & Hnew & Hn & Hle & Hout).
  unfold with_world, log, upd in *. simpl in *.
  split; [intros e He; by rewrite Hl, (Hsame e He)|].
  split; [by rewrite Hdi|].
  split; [exists new; by rewrite Hnew, Hresp|].
  exists pre. split; [done|]. split; [done|]. right. right. right.
  exists (world st1), engine, prompts, evs3, w3, w4, (Returns outs), n.
  rewrite Hsp, Hg, Hn, Htr, <- !app_assoc. simpl.
  split; [done|]. split; [done|]. split; [done|]. split; [done|]. split; [done|].
  split; [done|].
  destruct Hout as [[-> Hex] | (rs & -> & Hall & -> & _)].
  - by left.
  - right. by exists rs.
Qed.

(** X1: an engine, once there, stays.  In a process that has an engine,
    no run of [validate_environment], [completion] or
    [batch_completions], whatever its arguments and however it ends,
    changes the global handle. *)
Theorem engine_never_replaced (model : string) (op : option dict_ref) (d : Dict)
    (e : Engine) (st : State W) :
  llm st = Some e →
  caller_dict st op = Some d →
  llm (validate_environment env model op st).2 = Some e
  ∧ (∀ messages mr pv lg cpd,
       llm (completion env model messages mr pv lg op cpd st).2 = Some e)
  ∧ (∀ messages cpd, llm (batch_completions env model messages op cpd st).2 = Some e).
Proof.
  intros He Hd. split; [|split].
  - by destruct (validate_environment_engine_exists model op d e st He Hd) as (Hl & _).
  - intros messages mr pv lg cpd.
    destruct (completion env model messages mr pv lg op cpd st) as [o st'] eqn:Hrun.
    destruct (completion_frame _ _ _ _ _ _ _ _ _ _ _ Hd Hrun) as (Hl & _).
    by apply Hl.
  - intros messages cpd.
    destruct (batch_completions env model messages op cpd st) as [o st'] eqn:Hrun.
    destruct (batch_completions_phases _ _ _ _ _ _ _ _ Hd Hrun) as (Hl & _).
    by apply Hl.
Qed.

(** X3: the callers leave the caller's dicts alone.  After any run of
    [completion] or [batch_completions], every dict object that existed
    before holds what it held; the calls only add objects. *)
Theorem callers_keep_dicts (model : string) (op : option dict_ref) (d : Dict)
    (st : State W) :
  caller_dict st op = Some d →
  (∀ messages mr pv lg cpd r0 d0,
     dicts st !! r0 = Some d0 →
     dicts (completion env model messages mr pv lg op cpd st).2 !! r0 = Some d0)
  ∧ (∀ messages cpd r0 d0,
       dicts st !! r0 = Some d0 →
       dicts (batch_completions env model messages op cpd st).2 !! r0 = Some d0).
Proof.
  intros Hd. split.
  - intros messages mr pv lg cpd r0 d0 Hr0.
    destruct (completion env model messages mr pv lg op cpd st) as [o st'] eqn:Hrun.
    destruct (completion_frame _ _ _ _ _ _ _ _ _ _ _ Hd Hrun) as (_ & [fresh Hfresh] & _).
    simpl. rewrite Hfresh. by apply lookup_app_l_Some.
  - intros messages cpd r0 d0 Hr0.
    destruct (batch_completions env model messages op cpd st) as [o st'] eqn:Hrun.
    destruct (batch_completions_phases _ _ _ _ _ _ _ _ Hd Hrun)
      as (_ & [fresh Hfresh] & _).
    simpl. rewrite Hfresh. by apply lookup_app_l_Some.
Qed.

(** X4: [completion] writes to the response object only when it returns
    it.  A run that raises, at whatever point, or that returns the
    iterator, leaves every response object as it was; no run creates a
    response object or touches one other than the one passed in. *)
Theorem response_written_only_on_return (model : string) (messages : list PyVal)
    (mr : resp_ref) (pv : Printer W) (lg : Logging W) (op : option dict_ref)
    (cpd : gmap string Dict) (d : Dict) (st st' : State W)
    (o : Outcome CompletionResult) :
  caller_dict st op = Some d →
  completion env model messages mr pv lg op cpd st = (o, st') →
  length (responses st') = length (responses st)
  ∧ (∀ r0, r0 ≠ mr → responses st' !! r0 = responses st !! r0)
  ∧ (∀ x, o = Raises x → responses st' = responses st)
  ∧ (∀ it, o = Returns (RetIterator it) → responses st' = responses st).
Proof.
  intros Hd Hrun.
  destruct (completion_frame _ _ _ _ _ _ _ _ _ _ _ Hd Hrun)
    as (_ & _ & Hlen & Hother & Hsame & _).
  split; [exact Hlen|]. split; [exact Hother|]. split.
  - intros x ->. by apply Hsame.
  - intros it ->. by apply Hsame.
Qed.


(** X5: a batch adds response objects and touches none.  After any run of
    [batch_completions], however it ends, the response objects that
    existed before are as they were; a batch that returns hands back
    references to objects that did not exist before. *)
Theorem batch_keeps_existing_responses (model : string)
    (messages : list (list PyVal)) (op : option dict_ref)
    (cpd : gmap string Dict) (d : Dict) (st st' : State W)
    (o : Outcome (list resp_ref)) :
  caller_dict st op = Some d →
  batch_completions env model messages op cpd st = (o, st') →
  (∀ r resp, responses st !! r = Some resp → responses st' !! r = Some resp)
  ∧ (∀ rs r, o = Returns rs → r ∈ rs →
       responses st !! r = None ∧ is_Some (responses st' !! r)).
Proof.
  intros Hd Hrun.
  destruct (batch_completions_phases _ _ _ _ _ _ _ _ Hd Hrun) as (_ & _ & [new Hnew] & _).
  split.
  - intros r resp Hr. rewrite Hnew. by apply lookup_app_l_Some.
  - intros rs r -> Hin.
    destruct (batch_completions_run _ _ _ _ _ _ _ _ Hd Hrun) as (_ & Hret).
    destruct (Hret rs eq_refl) as (? & ? & ? & ? & outs & new' & _ & _ & Hresp & -> & Hpop).
    apply elem_of_seq in Hin. split; [apply lookup_ge_None; lia|].
    apply lookup_lt_is_Some. rewrite Hresp, length_app.
    rewrite <- (Forall2_length _ _ _ Hpop). lia.
Qed.

(** X9: the second loop of the batch is all or nothing.  It returns, with
    one reference per engine output, exactly when every output has a
    candidate; if any output has none it raises [IndexError] and hands
    back nothing.  Either way the response objects that existed before are
    as they were. *)
Theorem collect_responses_all_or_nothing (model : string)
    (outs : list RequestOutput) (st : State W) :
  (Forall (λ out, outputs out ≠ []) outs →
     ∃ rs, (collect_responses env model outs st).1 = Returns rs
           ∧ length rs = length outs)
  ∧ (Exists (λ out, outputs out = []) outs →
       (collect_responses env model outs st).1 = Raises IndexError)
  ∧ ∃ new, responses (collect_responses env model outs st).2 = responses st ++ new.
Proof.
  unfold collect_responses.
  match goal with
  | |- context [ for_each ?f outs [] st ] =>
      destruct (for_each f outs [] st) as [o st'] eqn:Hrun
  end.
  destruct (collect_responses_loop_any _ _ _ _ _ _ Hrun)
    as (_ & _ & new & n & Hnew & _ & _ & Hout).
  destruct (collect_responses_loop _ _ _ _ _ _ Hrun) as (_ & _ & _ & Hrs).
  simpl. split; [|split; [|by exists new]].
  - intros Hall. destruct Hout as [[-> Hex] | (rs & -> & _)].
    + exfalso. apply Exists_exists in Hex as (out & Hin & Hempty).
      rewrite Forall_forall in Hall. by apply (Hall out Hin).
    + exists rs. split; [done|].
      destruct (Hrs rs eq_refl) as (? & _ & -> & _). simpl. by rewrite length_seq.
  - intros Hex. destruct Hout as [[-> _] | (rs & -> & Hall & _)]; [done|].
    exfalso. apply Exists_exists in Hex as (out & Hin & Hempty).
    rewrite Forall_forall in Hall. by apply (Hall out Hin).
Qed.

(** ** Errors that are not wrapped *)

Ltac events_ok :=
  repeat first
    [ assumption
    | apply Forall_nil_2
    | apply Forall_app; split
    | apply Forall_cons_2; [first [by left | by right]|] ].

(** X6: options the sampling class rejects stop the call before anything
    else happens.  If [SamplingParams] raises on the generation options,
    then every run of [completion] and of [batch_completions] raises:
    either the adapter's error of a failed resolution, or the very
    exception [SamplingParams] raised, not wrapped.  No prompt is
    rendered, nothing is logged, the engine is not called and no response
    object is written or created. *)
Theorem rejected_options_stop_the_call (model : string) (op : option dict_ref)
    (d : Dict) (st : State W) :
  caller_dict st op = Some d →
  (∀ w, is_Some (SamplingParams env (generation_options d) w).1) →
  (∀ messages mr pv lg cpd o st',
     completion env model messages mr pv lg op cpd st = (o, st') →
     (∃ x, o = Raises x
           ∧ ((∃ m, x = VLLMError 0 m)
              ∨ ∃ w, (SamplingParams env (generation_options d) w).1 = Some x))
     ∧ responses st' = responses st
     ∧ ∃ evs, trace st' = trace st ++ evs
              ∧ Forall (λ ev, is_resolve_event ev = true
                              ∨ ev = EvSamplingParams (generation_options d)) evs)
  ∧ (∀ messages cpd o st',
       batch_completions env model messages op cpd st = (o, st') →
       (∃ x, o = Raises x
             ∧ ((∃ m, x = VLLMError 0 m)
                ∨ ∃ w, (SamplingParams env (generation_options d) w).1 = Some x))
       ∧ responses st' = responses st
       ∧ ∃ evs, trace st' = trace st ++ evs
                ∧ Forall (λ ev, is_resolve_event ev = true
                                ∨ ev = EvSamplingParams (generation_options d)) evs).
Proof.
  intros Hd Hrej.
  assert (∀ w, (SamplingParams env (generation_options d) w).1 ≠ None) as Hnot.
  { intros w Hnone. destruct (Hrej w) as [x Hx]. congruence. }
  split.
  - intros messages mr pv lg cpd o st' Hrun.
    rewrite (completion_unfold _ _ _ _ _ _ _ _ _ Hd) in Hrun.
    unfold completion_flat, validate_environment_flat in Hrun.
    destruct (import_vllm env (world st)) as [[e|] w1].
    { injection Hrun as <- <-. simpl.
      split; [eexists; split; [reflexivity|]; left; by eexists|]. split; [done|].
      exists [EvImport]. split; [done|]. events_ok. }
    destruct (llm st) as [e|].
    + simpl in Hrun. specialize (Hnot w1).
      destruct (SamplingParams env (generation_options d) w1) as [[x|] w2] eqn:Hsp;
        [|done].
      injection Hrun as <- <-. simpl.
      split; [exists x; split; [done|]; right; exists w1; by rewrite Hsp|].
      split; [done|]. eexists. split; [by rewrite <- app_assoc|].
      events_ok.
    + destruct (LLM env model (construction_options d) w1) as [[e|e] w2]; simpl in Hrun.
      * specialize (Hnot w2).
        destruct (SamplingParams env (generation_options d) w2) as [[x|] w3] eqn:Hsp;
          [|done].
        injection Hrun as <- <-. simpl.
        split; [exists x; split; [done|]; right; exists w2; by rewrite Hsp|].
        split; [done|]. eexists. split; [by rewrite <- app_assoc|].
        events_ok.
      * injection Hrun as <- <-. simpl.
        split; [eexists; split; [reflexivity|]; left; by eexists|]. split; [done|].
        eexists. split; [done|]. events_ok.
  - intros messages cpd o st' Hrun.
    destruct (batch_completions_phases _ _ _ _ _ _ _ _ Hd Hrun)
      as (_ & _ & _ & pre & Hpre & Hcount & Hcases).
    assert (Forall (λ ev, is_resolve_event ev = true
                          ∨ ev = EvSamplingParams (generation_options d)) pre) as Hpre'.
    { eapply Forall_impl; [exact Hpre|]. intros; by left. }
    destruct Hcases
      as [(m & -> & Htr & Hresp)
         | [(w & x & Hx & -> & Htr & Hresp)
           | [(w0 & ? & ? & Hnone & _) | (w0 & ? & ? & ? & ? & ? & ? & ? & Hnone & _)]]].
    + split; [eexists; split; [reflexivity|]; left; by eexists|].
      split; [done|]. by exists pre.
    + split; [exists x; split; [done|]; right; by exists w|].
      split; [done|]. eexists. split; [exact Htr|].
      events_ok.
    + by destruct (Hnot w0).
    + by destruct (Hnot w0).
Qed.

Lemma app_eq_self {A : Type} (l k : list A) : l = l ++ k → k = [].
Proof.
  intros H. symmetry. apply (app_inv_head l). by rewrite app_nil_r.
Qed.

(** A registered template that lacks one of its three entries: the lookup
    raises [KeyError] and the template function is not called. *)
Lemma render_prompt_missing_key (model : string) (messages : list PyVal)
    (cpd : gmap string Dict) (det : Dict) (k : string) (st : State W) :
  cpd !! model = Some det →
  k ∈ template_keys →
  det !! k = None →
  ∃ k', k' ∈ template_keys ∧ det !! k' = None
        ∧ render_prompt env model messages cpd st = (Raises (KeyError k'), st).
Proof.
  intros Hm Hk Hnone. unfold render_prompt, bind, eval, py_getitem. rewrite Hm.
  unfold template_keys in *.
  destruct (det !! "roles") as [a|] eqn:Ha.
  2: { exists "roles". split; [apply list_elem_of_here|]. by split. }
  destruct (det !! "initial_prompt_value") as [b|] eqn:Hb.
  2: { exists "initial_prompt_value".
       split; [apply list_elem_of_further, list_elem_of_here|]. by split. }
  destruct (det !! "final_prompt_value") as [c|] eqn:Hc.
  2: { exists "final_prompt_value".
       split; [do 2 apply list_elem_of_further; apply list_elem_of_here|]. by split. }
  exfalso.
  repeat (apply elem_of_cons in Hk as [-> | Hk]; [congruence|]).
  by apply elem_of_nil in Hk.
Qed.

(** X8: a registered template with a missing entry.  When the model has a
    template registered and the template lacks one of ["roles"],
    ["initial_prompt_value"], ["final_prompt_value"], no [completion]
    returns: a run that gets past engine resolution and the sampling
    configuration raises [KeyError] for a missing entry, as it is.  The
    template functions are not called, nothing is logged, the engine is not
    called and no response object is written. *)
Theorem template_without_entry_stops_completion (model : string)
    (messages : list PyVal) (mr : resp_ref) (pv : Printer W) (lg : Logging W)
    (op : option dict_ref) (cpd : gmap string Dict) (d det : Dict) (k : string)
    (st st' : State W) (o : Outcome CompletionResult) :
  caller_dict st op = Some d →
  cpd !! model = Some det →
  k ∈ template_keys →
  det !! k = None →
  completion env model messages mr pv lg op cpd st = (o, st') →
  (∃ x, o = Raises x
        ∧ ((∃ m, x = VLLMError 0 m)
           ∨ (∃ w, (SamplingParams env (generation_options d) w).1 = Some x)
           ∨ (∃ k', k' ∈ template_keys ∧ det !! k' = None ∧ x = KeyError k')))
  ∧ responses st' = responses st
  ∧ ∃ evs, trace st' = trace st ++ evs
           ∧ Forall (λ ev, is_resolve_event ev = true
                           ∨ ev = EvSamplingParams (generation_options d)) evs.
Proof.
  intros Hd Hm Hk Hnone Hrun. run_completion Hd.
  all: repeat match goal with
         | H : render_prompt _ ?m ?ms ?c ?s = (_, _) |- _ =>
             let k' := fresh "k'" in
             destruct (render_prompt_missing_key m ms c det k s Hm Hk Hnone)
               as (k' & ? & ? & Heq);
             rewrite Heq in H; clear Heq; simplify_eq
         end.
  all: repeat match goal with
         | H : ?tr = ?tr ++ ?evs |- _ => apply app_eq_self in H; subst evs
         end.
  all: rewrite ?app_nil_r.
  all: split;
         [eexists; split; [reflexivity|];
          first [ left; by eexists
                | right; left; eexists;
                  match goal with H : SamplingParams _ _ _ = _ |- _ => by rewrite H end
                | right; right; by eexists ]|].
  all: split; [done|].
  all: eexists; split; [rewrite <- ?app_assoc; reflexivity|]; events_ok.
Qed.

(** ** Order and number of the external calls *)

(** X7: what the post-call log event carries.  In every run of
    [completion], however it ends, a post-call event is logged only when
    streaming was not asked for and only in a run that logged the pre-call
    event for the same prompt and sampling configuration; its
    [original_response] is a list the engine returns for that prompt;
    [print_verbose] is called only in a run with such a post-call event,
    on the same list. *)
Theorem post_call_reports_engine_output (model : string) (messages : list PyVal)
    (mr : resp_ref) (pv : Printer W) (lg : Logging W) (op : option dict_ref)
    (cpd : gmap string Dict) (d : Dict) (st st' : State W)
    (o : Outcome CompletionResult) :
  caller_dict st op = Some d →
  completion env model messages mr pv lg op cpd st = (o, st') →
  ∃ evs, trace st' = trace st ++ evs
         ∧ (∀ i key r sp, EvPostCall i key r sp ∈ evs →
              key = EmptyString
              ∧ sp = SamplingParamsOf (generation_options d)
              ∧ stream_requested (generation_options d) = false
              ∧ EvPreCall i key sp ∈ evs
              ∧ ∃ e w w', generate env e (OnePrompt i) sp w = (Returns r, w'))
         ∧ (∀ r, EvPrintVerbose r ∈ evs → ∃ i key sp, EvPostCall i key r sp ∈ evs).
Proof.
  intros Hd Hrun. run_completion Hd.
  all: rewrite <- ?app_assoc; eexists; (split; [reflexivity|]).
  all: split.
  all: first [ intros ev_i ev_key ev_r ev_sp Hin | intros ev_r Hin ].
  all: repeat first
         [ apply elem_of_app in Hin as [Hin | Hin]
         | apply elem_of_cons in Hin as [Hin | Hin]
         | apply elem_of_nil in Hin; destruct Hin ];
       try discriminate.
  all: try (rewrite Forall_forall in Hev; specialize (Hev _ Hin); discriminate).
  all: simplify_eq.
  all: first
         [ eexists _, _, _; rewrite !elem_of_app, !elem_of_cons; by eauto 12
         | split; [done|]; split; [done|]; split; [done|]; split;
             [rewrite !elem_of_app, !elem_of_cons; by eauto 12|];
           by eexists _, _, _ ].
Qed.


Lemma count_events_app (kind : Event → bool) (a b : list Event) :
  count_events kind (a ++ b) = (count_events kind a + count_events kind b)%nat.
Proof. unfold count_events. by rewrite List.filter_app, length_app. Qed.

Lemma count_events_none (kind other : Event → bool) (evs : list Event) :
  (∀ ev, other ev = true → kind ev = false) →
  Forall (λ ev, other ev = true) evs →
  count_events kind evs = 0%nat.
Proof.
  intros Hdisj Hall. unfold count_events.
  induction Hall as [|ev evs Hev _ IH]; [done|].
  simpl. by rewrite (Hdisj ev Hev).
Qed.

Lemma count_events_repeat_EvTime (kind : Event → bool) (n : nat) :
  kind EvTime = false → count_events kind (repeat EvTime n) = 0%nat.
Proof.
  intros Hk. unfold count_events. induction n as [|n IH]; [done|].
  simpl. by rewrite Hk.
Qed.

(** X14: one call, at most one engine call.  In every run of
    [completion] and of [batch_completions], however it ends, the engine's
    [generate] is called at most once and the [LLM] constructor at most
    once; [completion] logs at most one pre-call and one post-call
    event. *)
Theorem at_most_one_engine_call (model : string) (op : option dict_ref)
    (cpd : gmap string Dict) (d : Dict) (st : State W) :
  caller_dict st op = Some d →
  (∀ messages mr pv lg o st',
     completion env model messages mr pv lg op cpd st = (o, st') →
     ∃ evs, trace st' = trace st ++ evs
            ∧ (count_events is_generate_event evs ≤ 1)%nat
            ∧ (count_events is_LLM_event evs ≤ 1)%nat
            ∧ (count_events is_log_event evs ≤ 2)%nat)
  ∧ (∀ messages o st',
       batch_completions env model messages op cpd st = (o, st') →
       ∃ evs, trace st' = trace st ++ evs
              ∧ (count_events is_generate_event evs ≤ 1)%nat
              ∧ (count_events is_LLM_event evs ≤ 1)%nat).
Proof.
  intros Hd. split.
  - intros messages mr pv lg o st' Hrun. run_completion Hd.
    all: rewrite <- ?app_assoc; eexists; (split; [reflexivity|]).
    all: rewrite ?count_events_app.
    all: try rewrite (count_events_none is_generate_event is_prompt_event evs)
           by (by intros [] || done).
    all: try rewrite (count_events_none is_LLM_event is_prompt_event evs)
           by (by intros [] || done).
    all: try rewrite (count_events_none is_log_event is_prompt_event evs)
           by (by intros [] || done).
    all: unfold count_events; simpl; lia.
  - intros messages o st' Hrun.
    destruct (batch_completions_phases _ _ _ _ _ _ _ _ Hd Hrun)
      as (_ & _ & _ & pre & Hpre & Hcount & Hcases).
    assert (count_events is_generate_event pre = 0%nat) as Hg0.
    { apply (count_events_none _ is_resolve_event); [by intros []|done]. }
    assert (∀ evs, Forall (λ ev, is_prompt_event ev = true) evs →
                   count_events is_generate_event evs = 0%nat
                   ∧ count_events is_LLM_event evs = 0%nat) as Hprompt.
    { intros evs Hevs.
      split; apply (count_events_none _ is_prompt_event); by intros [] || done. }
    destruct Hcases
      as [(m & _ & Htr & _)
         | [(w & x & _ & _ & Htr & _)
           | [(w0 & x & evs & _ & _ & Hevs & Htr & _)
             | (w0 & e & prompts & evs & w & w' & r & n & _ & _ & Hevs & _ & Htr & _)]]].
    all: eexists; (split; [exact Htr|]).
    all: rewrite ?count_events_app, ?Hg0.
    all: try (destruct (Hprompt evs Hevs) as [-> ->]).
    all: rewrite ?count_events_repeat_EvTime by done.
    all: set (c := count_events is_LLM_event pre) in *; unfold count_events; simpl; lia.
Qed.

(** The one event [render_prompt] can add: the call of the template
    function the registration selects. *)
Lemma render_prompt_events (model : string) (messages : list PyVal)
    (cpd : gmap string Dict) (st : State W) :
  ∃ w evs,
    (render_prompt env model messages cpd st).2 = upd st w evs
    ∧ match cpd !! model with
      | None => evs = [EvPromptFactory model messages]
      | Some det =>
          evs = []
          ∨ ∃ a b c,
              det !! "roles" = Some a
              ∧ det !! "initial_prompt_value" = Some b
              ∧ det !! "final_prompt_value" = Some c
              ∧ evs = [EvCustomPrompt a b c messages]
      end.
Proof.
  unfold render_prompt, bind, eval, call, with_world, log, upd, py_getitem.
  destruct st as [g ds rs w tr]; simpl.
  destruct (cpd !! model) as [det|].
  - destruct (det !! "roles") as [a|] eqn:Ha; simpl.
    2: { exists w, []. rewrite app_nil_r. split; [done|]. by left. }
    destruct (det !! "initial_prompt_value") as [b|] eqn:Hb; simpl.
    2: { exists w, []. rewrite app_nil_r. split; [done|]. by left. }
    destruct (det !! "final_prompt_value") as [c|] eqn:Hc; simpl.
    2: { exists w, []. rewrite app_nil_r. split; [done|]. by left. }
    destruct (custom_prompt env a b c messages w) as [o w']. simpl.
    exists w', [EvCustomPrompt a b c messages]. split; [done|]. right.
    by exists a, b, c.
  - simpl. destruct (prompt_factory env model messages w) as [o w']. simpl.
    by exists w', [EvPromptFactory model messages].
Qed.

(** X16: which template function is called.  In every run of
    [completion], at most one template function is called.  For a model
    without a registered template it is [prompt_factory], on the model
    identifier and the messages; for a model with one it is
    [custom_prompt], on the three entries of that template and the
    messages.  The other function is never called. *)
Theorem prompt_path_follows_registration (model : string) (messages : list PyVal)
    (mr : resp_ref) (pv : Printer W) (lg : Logging W) (op : option dict_ref)
    (cpd : gmap string Dict) (d : Dict) (st st' : State W)
    (o : Outcome CompletionResult) :
  caller_dict st op = Some d →
  completion env model messages mr pv lg op cpd st = (o, st') →
  ∃ evs, trace st' = trace st ++ evs
         ∧ (count_events is_prompt_event evs ≤ 1)%nat
         ∧ ∀ ev, ev ∈ evs → is_prompt_event ev = true →
             match cpd !! model with
             | None => ev = EvPromptFactory model messages
             | Some det =>
                 ∃ a b c,
                   det !! "roles" = Some a
                   ∧ det !! "initial_prompt_value" = Some b
                   ∧ det !! "final_prompt_value" = Some c
                   ∧ ev = EvCustomPrompt a b c messages
             end.
Proof.
  intros Hd Hrun. run_completion Hd.
  all: repeat match goal with
         | H : render_prompt _ ?m ?ms ?c ?s = (_, _) |- _ =>
             let Hst := fresh "Hst" in let Hsel := fresh "Hsel" in
             destruct (render_prompt_events m ms c s) as (? & ? & Hst & Hsel);
             rewrite H in Hst; unfold upd in Hst; simpl in Hst;
             injection Hst as _ Hst; apply app_inv_head in Hst; subst; clear H
         end.
  all: rewrite <- ?app_assoc; eexists; (split; [reflexivity|]).
  all: split.
  all: try (rewrite ?count_events_app;
            destruct (cpd !! model);
            [destruct Hsel as [-> | (? & ? & ? & _ & _ & _ & ->)] | subst];
            unfold count_events; simpl; lia).
  all: try (unfold count_events; simpl; lia).
  all: intros ev Hin Hp.
  all: repeat first
         [ apply elem_of_app in Hin as [Hin | Hin]
         | apply elem_of_cons in Hin as [Hin | Hin]
         | apply elem_of_nil in Hin; destruct Hin ];
       try (subst ev; discriminate).
  all: destruct (cpd !! model);
         [destruct Hsel as [-> | (a' & b' & c' & Ha & Hb & Hc & ->)] | subst].
  all: try (by apply elem_of_nil in Hin).
  all: apply list_elem_of_singleton in Hin as ->.
  all: simplify_eq.
  all: first [ done | by exists a', b', c' ].
Qed.

(** X15: what the engine is given in a batch.  In every run of
    [batch_completions], however it ends, the engine is called only after
    every message list has been rendered, with the prompts of all of them
    in input order and with the sampling configuration built from the
    generation options. *)
Theorem batch_engine_gets_every_prompt (model : string)
    (messages : list (list PyVal)) (op : option dict_ref)
    (cpd : gmap string Dict) (d : Dict) (st st' : State W)
    (o : Outcome (list resp_ref)) :
  caller_dict st op = Some d →
  batch_completions env model messages op cpd st = (o, st') →
  ∃ evs, trace st' = trace st ++ evs
         ∧ ∀ e ps sp, EvGenerate e ps sp ∈ evs →
             sp = SamplingParamsOf (generation_options d)
             ∧ ∃ prompts, ps = ManyPrompts prompts
                          ∧ length prompts = length messages
                          ∧ Forall2 (rendered env model cpd) messages prompts.
Proof.
  intros Hd Hrun.
  destruct (batch_completions_phases _ _ _ _ _ _ _ _ Hd Hrun)
    as (_ & _ & _ & pre & Hpre & _ & Hcases).
  assert (∀ e ps sp, EvGenerate e ps sp ∉ pre) as Hnopre.
  { intros e ps sp Hin. rewrite Forall_forall in Hpre. by specialize (Hpre _ Hin). }
  assert (∀ evs e ps sp, Forall (λ ev, is_prompt_event ev = true) evs →
                         EvGenerate e ps sp ∉ evs) as Hnoprompt.
  { intros evs e ps sp Hall Hin. rewrite Forall_forall in Hall.
    by specialize (Hall _ Hin). }
  destruct Hcases
    as [(m & _ & Htr & _)
       | [(w & x & _ & _ & Htr & _)
         | [(w0 & x & evs & _ & _ & Hevs & Htr & _)
           | (w0 & e & prompts & evs & w & w' & r & n & _ & Hren & Hevs & _ & Htr & _)]]].
  all: eexists; (split; [exact Htr|]).
  all: intros e' ps sp Hin.
  all: repeat first
         [ apply elem_of_app in Hin as [Hin | Hin]
         | apply elem_of_cons in Hin as [Hin | Hin]
         | apply elem_of_nil in Hin; destruct Hin ];
       try discriminate.
  all: try (by destruct (Hnopre _ _ _ Hin)).
  all: try (by destruct (Hnoprompt _ _ _ _ Hevs Hin)).
  - injection Hin as -> -> ->. split; [done|]. exists prompts.
    split; [done|]. split; [|done]. symmetry. by eapply Forall2_length.
  - apply list_elem_of_In, repeat_spec in Hin. discriminate.
Qed.

(** With collaborators that do not raise, every message list is rendered. *)
Lemma render_prompts_cooperative (model : string) (cpd : gmap string Dict)
    (messages : list (list PyVal)) :
  cooperative_batch env model cpd →
  ∀ (acc : list string) (st : State W),
    ∃ ps, (for_each (λ prompts message,
                       prompt <- render_prompt env model message cpd ;;
                       ret (prompts ++ [prompt])) messages acc st).1 = Returns ps.
Proof.
  intros (_ & _ & _ & Hcp & Hpf & _ & Hdet).
  induction messages as [|message messages IH]; intros acc st; simpl.
  - by exists acc.
  - unfold bind at 1 2.
    assert (∃ p, (render_prompt env model message cpd st).1 = Returns p) as [p Hp].
    { unfold render_prompt, bind, eval, call, py_getitem.
      destruct (cpd !! model) as [det|] eqn:Hm.
      - destruct (Hdet det eq_refl) as ([a Ha] & [b Hb] & [c Hc]).
        rewrite Ha, Hb, Hc. simpl.
        destruct (Hcp a b c message (world st)) as [p Hp].
        destruct (custom_prompt env a b c message (world st)) as [o w].
        simpl in *. by exists p.
      - destruct (Hpf model message (world st)) as [p Hp].
        destruct (prompt_factory env model message (world st)) as [o w].
        simpl in *. by exists p. }
    destruct (render_prompt env model message cpd st) as [o st1].
    simpl in Hp. subst o. unfold ret at 1. apply IH.
Qed.

(** X17: a batch that returns.  When no collaborator raises, a registered
    template has its three entries and every output of the engine holds a
    candidate, [batch_completions] returns its list of responses. *)
Theorem batch_completions_cooperative (model : string)
    (messages : list (list PyVal)) (op : option dict_ref)
    (cpd : gmap string Dict) (d : Dict) (st : State W) :
  cooperative_batch env model cpd →
  caller_dict st op = Some d →
  ∃ rs, (batch_completions env model messages op cpd st).1 = Returns rs.
Proof.
  intros Hco Hd.
  pose proof Hco as (Himp & HLLM & Hsp & _ & _ & Hgen & _).
  unfold batch_completions. unfold bind at 1. unfold try_except.
  rewrite (validate_environment_unfold model op d st Hd).
  unfold validate_environment_flat.
  specialize (Himp (world st)).
  destruct (import_vllm env (world st)) as [[?|] w1]; [done|].
  assert (∀ (e : Engine) (s1 : State W) (gen : dict_ref),
            dicts s1 !! gen = Some (generation_options d) →
            ∃ rs,
              ((sampling_params <- make_sampling_params env gen ;;
                prompts <- render_prompts env model messages cpd ;;
                outputs <- generate_or_raise env (Some e) (ManyPrompts prompts)
                             sampling_params ;;
                collect_responses env model outputs) s1).1 = Returns rs) as Hrest.
  { intros e s1 gen Hgenopt. unfold bind at 1.
    rewrite (make_sampling_params_unfold gen _ s1 Hgenopt).
    specialize (Hsp (generation_options d) (world s1)).
    destruct (SamplingParams env (generation_options d) (world s1)) as [[?|] w2];
      [done|]. simpl.
    unfold bind at 1. unfold render_prompts.
    match goal with
    | |- context [ for_each ?f messages [] ?s ] =>
        destruct (render_prompts_cooperative model cpd messages Hco [] s) as [ps Hps];
        destruct (for_each f messages [] s) as [o3 st3]
    end.
    simpl in Hps. subst o3.
    unfold bind at 1. unfold generate_or_raise, call.
    destruct (Hgen e ps (SamplingParamsOf (generation_options d)) (world st3))
      as (outs & Hg & Hall).
    destruct (generate env e (ManyPrompts ps) _ (world st3)) as [o4 w4].
    simpl in Hg. subst o4.
    unfold collect_responses.
    match goal with
    | |- context [ for_each ?f outs [] ?s ] =>
        destruct (for_each f outs [] s) as [o5 st5] eqn:Hloop
    end.
    destruct (collect_responses_loop_any _ _ _ _ _ _ Hloop)
      as (_ & _ & _ & _ & _ & _ & _ & [[-> Hex] | (rs & -> & _)]).
    - exfalso. apply Exists_exists in Hex as (out & Hin & Hempty).
      rewrite Forall_forall in Hall. by apply (Hall out Hin).
    - by exists rs. }
  destruct (llm st) as [e|].
  - simpl. apply Hrest. simpl. apply lookup_locals_last.
  - destruct (HLLM model (construction_options d) w1) as [e He].
    destruct (LLM env model (construction_options d) w1) as [o2 w2].
    simpl in He. subst o2. simpl. apply Hrest. simpl. apply lookup_locals_last.
Qed.


End Properties.

(** * The handler at work on the sample environment *)

Module Run.

Import Sample.

(** A first call builds the engine; the options it hands back are a new
    dict, the seventh in the store. *)
Example validate_environment_first_call :
  (validate_environment env "facebook/opt-125m" (Some 0%nat) st0).1
  = Returns (Some (EngineObj 1), 6%nat).
Proof. vm_compute. reflexivity. Qed.

(** The external calls of one non-streaming completion, in order. *)
Example completion_trace :
  let sp := SamplingParamsOf (generation_options options) in
  let prompt := "prompt for facebook/opt-125m" in
  let outs := [out 2 ("echo " +:+ prompt)] in
  trace (completion env "facebook/opt-125m" messages 0%nat print_verbose logging_obj
           (Some 0%nat) ∅ st0).2
  = [ EvImport;
      EvLLM "facebook/opt-125m" (construction_options options);
      EvSamplingParams (generation_options options);
      EvPromptFactory "facebook/opt-125m" messages;
      EvPreCall prompt EmptyString sp;
      EvGenerate (EngineObj 1) (OnePrompt prompt) sp;
      EvPostCall prompt EmptyString outs sp;
      EvPrintVerbose outs;
      EvTime ].
Proof. vm_compute. reflexivity. Qed.

(** The response object it fills. *)
Example completion_response :
  responses (completion env "facebook/opt-125m" messages 0%nat print_verbose logging_obj
               (Some 0%nat) ∅ st0).2
  = [ {| choices :=
           [ {| message :=
                  {| content := Some "echo prompt for facebook/opt-125m" |} |} ];
         created := Some 1700000008%Z;
         mr_model := Some "facebook/opt-125m";
         usage := Some {| prompt_tokens := 3; completion_tokens := 2;
                          total_tokens := 5 |} |} ].
Proof. vm_compute. reflexivity. Qed.

(** A batch of two: two new response objects, after the caller's one. *)
Example batch_completions_result :
  (batch_completions env "facebook/opt-125m" batch_messages None ∅ st0).1
  = Returns [1; 2]%nat.
Proof. vm_compute. reflexivity. Qed.

(** Only [True] itself asks for streaming. *)
Example stream_requested_values :
  stream_requested (<["stream" := VBool true]> ∅) = true
  ∧ stream_requested (<["stream" := VBool false]> ∅) = false
  ∧ stream_requested (<["stream" := VInt 1]> ∅) = false
  ∧ stream_requested (<["stream" := VStr "true"]> ∅) = false
  ∧ stream_requested (<["stream" := VNone]> ∅) = false
  ∧ stream_requested (<["temperature" := VInt 0]> ∅) = false
  ∧ stream_requested ∅ = false.
Proof. vm_compute. repeat split. Qed.

End Run.

(** * The theorems at work on the sample environment *)

Module Witness.

Import Sample.

Lemma options_partition_witness :
  caller_dict st0 (Some 0%nat) = Some options
  ∧ construction_options options !! "dtype" = Some (VStr "float16")
  ∧ generation_options options !! "dtype" = None
  ∧ construction_options options !! "temperature" = None
  ∧ generation_options options !! "temperature" = Some (VInt 0)
  ∧ ∃ evs, trace (validate_environment env "facebook/opt-125m" (Some 0%nat) st0).2
           = trace st0 ++ evs
           ∧ EvLLM "facebook/opt-125m" (construction_options options) ∈ evs.
Proof.
  split; [reflexivity|].
  destruct (options_partition env "facebook/opt-125m" (Some 0%nat) options st0 eq_refl)
    as (Hin & Hout & _ & evs & Htr & _ & Hcalled).
  destruct (Hin "dtype") as (Hc & _ & Hg).
  { unfold whitelist. do 4 apply list_elem_of_further. apply list_elem_of_here. }
  destruct (Hout "temperature") as (Hc' & Hg').
  { unfold whitelist. intros Hk.
    repeat (apply elem_of_cons in Hk as [Hk | Hk]; [discriminate|]).
    by apply elem_of_nil in Hk. }
  split; [exact Hc|]. split; [exact Hg|]. split; [exact Hc'|]. split; [exact Hg'|].
  exists evs. split; [exact Htr|]. by apply Hcalled.
Defined.

Lemma engine_singleton_witness :
  llm st_engine = Some (EngineObj 42)
  ∧ caller_dict st_engine (Some 0%nat) = Some options
  ∧ caller_dict (validate_environment env "facebook/opt-125m" (Some 0%nat) st_engine).2 None
    = Some ∅
  ∧ (∃ g, (validate_environment env "facebook/opt-125m" (Some 0%nat) st_engine).1
          = Returns (Some (EngineObj 42), g))
  ∧ (∃ g, (validate_environment env "meta-llama/Llama-2-7b" None
             (validate_environment env "facebook/opt-125m" (Some 0%nat) st_engine).2).1
          = Returns (Some (EngineObj 42), g)).
Proof.
  split; [reflexivity|]. split; [reflexivity|]. split; [reflexivity|].
  pose proof (engine_singleton env "facebook/opt-125m" "meta-llama/Llama-2-7b"
                (Some 0%nat) None options ∅ (EngineObj 42) st_engine
                eq_refl eq_refl eq_refl) as H.
  cbv zeta in H. destruct H as (_ & _ & _ & _ & H1 & H2 & _).
  split; [apply H1 | apply H2]; reflexivity.
Defined.

Lemma usage_accounting_witness :
  caller_dict st0 (Some 0%nat) = Some options
  ∧ (∃ resp u,
       responses (completion env "facebook/opt-125m" messages 0%nat print_verbose
                    logging_obj (Some 0%nat) ∅ st0).2 !! 0%nat = Some resp
       ∧ usage resp = Some u
       ∧ prompt_tokens u = 3%Z
       ∧ completion_tokens u = 2%Z
       ∧ total_tokens u = (prompt_tokens u + completion_tokens u)%Z)
  ∧ (∃ resp u,
       responses (batch_completions env "facebook/opt-125m" batch_messages
                    (Some 0%nat) ∅ st0).2 !! 2%nat = Some resp
       ∧ usage resp = Some u
       ∧ prompt_tokens u = 3%Z
       ∧ completion_tokens u = 2%Z
       ∧ total_tokens u = (prompt_tokens u + completion_tokens u)%Z).
Proof.
  split; [reflexivity|].
  destruct (usage_accounting env "facebook/opt-125m" (Some 0%nat) ∅ options st0 eq_refl)
    as [Hsingle Hbatch].
  split.
  - destruct (Hsingle messages 0%nat print_verbose logging_obj 0%nat
                (completion env "facebook/opt-125m" messages 0%nat print_verbose
                   logging_obj (Some 0%nat) ∅ st0).2)
      as (engine & prompt & sp & w & w' & outs & output & candidate & resp & u
          & Hg & Ho & Hc & Hr & Hu & Hp & Hq & Ht).
    { vm_compute. reflexivity. }
    simpl in Hg. injection Hg as <- _. simpl in Ho. injection Ho as <-.
    simpl in Hc. injection Hc as <-.
    exists resp, u. split; [exact Hr|]. split; [exact Hu|].
    split; [exact Hp|]. split; [exact Hq|]. exact Ht.
  - destruct (Hbatch batch_messages [1; 2]%nat
                (batch_completions env "facebook/opt-125m" batch_messages
                   (Some 0%nat) ∅ st0).2)
      as (engine & prompts & sp & w & w' & outs & Hg & Hall).
    { vm_compute. reflexivity. }
    destruct (Hall 1%nat 2%nat eq_refl)
      as (output & candidate & resp & u & Ho & Hc & Hr & Hu & Hp & Hq & Ht).
    simpl in Hg. injection Hg as <- _.
    exists resp, u. split; [exact Hr|]. split; [exact Hu|].
    split; [|split; [|exact Ht]].
    + rewrite Hp. unfold engine_generate in Ho. rewrite list_lookup_imap in Ho.
      destruct (prompts !! 1%nat); [|discriminate Ho].
      injection Ho as <-. reflexivity.
    + rewrite Hq. unfold engine_generate in Ho. rewrite list_lookup_imap in Ho.
      destruct (prompts !! 1%nat); [|discriminate Ho].
      injection Ho as <-. simpl in Hc. injection Hc as <-. reflexivity.
Defined.


Lemma sample_cooperative :
  cooperative env logging_obj print_verbose "facebook/opt-125m" ∅.
Proof.
  unfold cooperative. simpl.
  split; [reflexivity|].
  split; [intros m p w; by exists (EngineObj w)|].
  split; [reflexivity|].
  split; [intros a b c ms w; by exists "custom prompt"|].
  split; [intros m ms w; by exists ("prompt for " +:+ m)|].
  split.
  { intros e p sp w.
    by exists (out 2 ("echo " +:+ p)),
      {| text := "echo " +:+ p; token_ids := repeat 7%Z 2 |}, [], []. }
  split; [reflexivity|]. split; [reflexivity|]. split; [reflexivity|].
  intros det Hdet. by rewrite lookup_empty in Hdet.
Qed.

Lemma batch_one_response_per_input_witness :
  one_output_per_prompt env
  ∧ caller_dict st0 None = Some ∅
  ∧ batch_completions env "facebook/opt-125m" batch_messages None ∅ st0
    = (Returns [1; 2]%nat,
       (batch_completions env "facebook/opt-125m" batch_messages None ∅ st0).2)
  ∧ length [1; 2]%nat = length batch_messages
  ∧ NoDup [1; 2]%nat.
Proof.
  assert (batch_completions env "facebook/opt-125m" batch_messages None ∅ st0
          = (Returns [1; 2]%nat,
             (batch_completions env "facebook/opt-125m" batch_messages None ∅ st0).2))
    as Hrun by (vm_compute; reflexivity).
  assert (one_output_per_prompt env) as Hcontract.
  { intros e ps sp w outs Hg. simpl in Hg. injection Hg as <-.
    unfold engine_generate. apply length_imap. }
  split; [exact Hcontract|]. split; [reflexivity|].
  split; [exact Hrun|].
  destruct (batch_one_response_per_input env "facebook/opt-125m" batch_messages None ∅
              ∅ st0 _ [1; 2]%nat Hcontract eq_refl Hrun)
    as (Hlen & Hnd & _).
  split; [exact Hlen | exact Hnd].
Defined.

Lemma streaming_returns_raw_iterator_witness :
  caller_dict st0 (Some 1%nat) = Some options_stream
  ∧ stream_requested (generation_options options_stream) = true
  ∧ ∃ outs,
      (completion env "facebook/opt-125m" messages 0%nat print_verbose logging_obj
         (Some 1%nat) ∅ st0).1 = Returns (RetIterator (py_iter outs))
      ∧ responses (completion env "facebook/opt-125m" messages 0%nat print_verbose
                     logging_obj (Some 1%nat) ∅ st0).2 = responses st0
      ∧ (drain (length outs) (py_iter outs)).1 = outs.
Proof.
  assert (stream_requested (generation_options options_stream) = true) as Hs
    by (vm_compute; reflexivity).
  split; [reflexivity|]. split; [exact Hs|].
  destruct (streaming_returns_raw_iterator env "facebook/opt-125m" messages 0%nat
              print_verbose logging_obj (Some 1%nat) ∅ options_stream st0 eq_refl Hs)
    as [Hret Hprogress].
  destruct (Hprogress sample_cooperative) as [res Hres].
  destruct (Hret res (completion env "facebook/opt-125m" messages 0%nat print_verbose
                        logging_obj (Some 1%nat) ∅ st0).2)
    as (engine & prompt & w & w' & outs & pre & _ & -> & Hresp & _ & _ & Hdrain & _).
  { rewrite <- Hres. apply surjective_pairing. }
  exists outs. split; [exact Hres|]. split; [exact Hresp | exact Hdrain].
Defined.

Lemma engine_available_at_generate_witness :
  caller_dict st0 (Some 0%nat) = Some options
  ∧ (generate_or_raise env None (OnePrompt "hello") (SamplingParamsOf ∅) st0).1
    = Raises (VLLMError 0 "Need to pass in a model name to initialize vllm")
  ∧ ∃ e, llm (validate_environment env "facebook/opt-125m" (Some 0%nat) st0).2 = Some e
         ∧ ∀ prompts sp (s : State nat),
             generate_or_raise env (Some e) prompts sp s
             = call (EvGenerate e prompts sp) (generate env e prompts sp) s.
Proof.
  split; [reflexivity|].
  destruct (engine_available_at_generate env "facebook/opt-125m" (Some 0%nat) options
              st0 eq_refl) as (Hnone & Hsome & _).
  split; [by rewrite Hnone|].
  destruct (Hsome (Some (EngineObj 1)) 6%nat
              (validate_environment env "facebook/opt-125m" (Some 0%nat) st0).2)
    as (e & He & Hl & Hcall).
  { vm_compute. reflexivity. }
  exists e. split; [exact Hl|]. injection He as <-. exact Hcall.
Defined.

Lemma batch_emits_no_log_events_witness :
  caller_dict st0 None = Some ∅
  ∧ ∃ evs,
      trace (batch_completions env "facebook/opt-125m" batch_messages None ∅ st0).2
      = trace st0 ++ evs
      ∧ Forall (λ ev, is_log_event ev = false) evs.
Proof.
  split; [reflexivity|].
  destruct (batch_emits_no_log_events env "facebook/opt-125m" None ∅ ∅ st0 eq_refl)
    as [Hbatch _].
  exact (Hbatch batch_messages).
Defined.

Lemma stream_only_when_True_witness :
  caller_dict st0 (Some 2%nat) = Some options_stream_1
  ∧ options_stream_1 !! "stream" = Some (VInt 1)
  ∧ ∃ res,
      (completion env "facebook/opt-125m" messages 0%nat print_verbose logging_obj
         (Some 2%nat) ∅ st0).1 = Returns res
      ∧ res = RetResponse 0%nat.
Proof.
  assert (options_stream_1 !! "stream" = Some (VInt 1)) as Hone
    by (vm_compute; reflexivity).
  split; [reflexivity|]. split; [exact Hone|].
  destruct (stream_only_when_True env "facebook/opt-125m" messages 0%nat print_verbose
              logging_obj (Some 2%nat) ∅ options_stream_1 st0 eq_refl)
    as (_ & Hret & Hprogress).
  destruct (Hprogress sample_cooperative) as [res Hres].
  { by exists ModelResponse_new, {| message := {| content := None |} |}, []. }
  exists res. split; [exact Hres|].
  destruct (Hret res (completion env "facebook/opt-125m" messages 0%nat print_verbose
                        logging_obj (Some 2%nat) ∅ st0).2) as [_ Hother].
  { rewrite <- Hres. apply surjective_pairing. }
  destruct Hother as [Hr _]; [|exact Hr].
  rewrite Hone. intros [=].
Defined.

Lemma none_options_and_fresh_dicts_witness :
  (∃ e g, (validate_environment env "facebook/opt-125m" None st0).1
          = Returns (Some e, g))
  ∧ (∀ r0 d0, dicts st0 !! r0 = Some d0 →
       dicts (validate_environment env "facebook/opt-125m" (Some 0%nat) st0).2 !! r0
       = Some d0).
Proof.
  destruct (none_options_and_fresh_dicts env "facebook/opt-125m" st0)
    as (_ & _ & Hret & Hfresh).
  split.
  - apply Hret; [reflexivity|]. right. by eexists.
  - by destruct (Hfresh (Some 0%nat) options eq_refl) as [Hkeep _].
Defined.

End Witness.

(** * The further properties at work on the sample environments *)

Module MoreWitness.
Import Sample Faults.

Lemma engine_never_replaced_witness :
  llm st_engine = Some (EngineObj 42)
  ∧ caller_dict st_engine (Some 0%nat) = Some options
  ∧ llm (completion env "meta-llama/Llama-2-7b" messages 0%nat print_verbose
           logging_obj (Some 0%nat) ∅ st_engine).2 = Some (EngineObj 42)
  ∧ llm (batch_completions env "meta-llama/Llama-2-7b" batch_messages
           (Some 0%nat) ∅ st_engine).2 = Some (EngineObj 42).
Proof.
  split; [reflexivity|]. split; [reflexivity|].
  destruct (engine_never_replaced env "meta-llama/Llama-2-7b" (Some 0%nat) options
              (EngineObj 42) st_engine eq_refl eq_refl) as (_ & Hc & Hb).
  split; [apply Hc | apply Hb].
Defined.

Lemma failed_construction_is_retried_witness :
  caller_dict st0 (Some 0%nat) = Some options
  ∧ (LLM env_bad_engine "facebook/opt-125m" (construction_options options)
       (import_vllm env_bad_engine (world st0)).2).1
    = Raises (Exc "ValueError" "unknown model")
  ∧ llm (completion env_bad_engine "facebook/opt-125m" messages 0%nat print_verbose
           logging_obj (Some 0%nat) ∅ st0).2 = None
  ∧ ∃ evs,
      trace (validate_environment env_bad_engine "meta-llama/Llama-2-7b" None
               (validate_environment env_bad_engine "facebook/opt-125m"
                  (Some 0%nat) st0).2).2
      = trace (validate_environment env_bad_engine "facebook/opt-125m"
                 (Some 0%nat) st0).2 ++ evs
      ∧ EvLLM "meta-llama/Llama-2-7b" (construction_options ∅) ∈ evs.
Proof.
  split; [reflexivity|]. split; [reflexivity|].
  destruct (failed_construction_is_retried env_bad_engine "facebook/opt-125m"
              "meta-llama/Llama-2-7b" (Some 0%nat) None options ∅ st0
              (Exc "ValueError" "unknown model") eq_refl eq_refl eq_refl eq_refl)
    as (_ & Hc & _ & Hretry).
  split; [apply Hc|]. apply Hretry; reflexivity.
Defined.

Lemma callers_keep_dicts_witness :
  caller_dict st0 (Some 0%nat) = Some options
  ∧ dicts (completion env "facebook/opt-125m" messages 0%nat print_verbose
             logging_obj (Some 0%nat) ∅ st0).2 !! 0%nat = Some options
  ∧ dicts (batch_completions env "facebook/opt-125m" batch_messages
             (Some 0%nat) ∅ st0).2 !! 1%nat = Some options_stream.
Proof.
  split; [reflexivity|].
  destruct (callers_keep_dicts env "facebook/opt-125m" (Some 0%nat) options st0 eq_refl)
    as [Hc Hb].
  split; [apply Hc | apply Hb]; reflexivity.
Defined.

Lemma response_written_only_on_return_witness :
  caller_dict st0 (Some 1%nat) = Some options_stream
  ∧ (completion env_strict "facebook/opt-125m" messages 0%nat print_verbose
       logging_obj (Some 1%nat) ∅ st0).1
    = Raises (Exc "TypeError" "unexpected keyword argument 'stream'")
  ∧ responses (completion env_strict "facebook/opt-125m" messages 0%nat print_verbose
                 logging_obj (Some 1%nat) ∅ st0).2 = responses st0.
Proof.
  assert ((completion env_strict "facebook/opt-125m" messages 0%nat print_verbose
             logging_obj (Some 1%nat) ∅ st0).1
          = Raises (Exc "TypeError" "unexpected keyword argument 'stream'")) as Hraises
    by (vm_compute; reflexivity).
  split; [reflexivity|]. split; [exact Hraises|].
  destruct (response_written_only_on_return env_strict "facebook/opt-125m" messages
              0%nat print_verbose logging_obj (Some 1%nat) ∅ options_stream st0 _ _
              eq_refl (surjective_pairing _)) as (_ & _ & Hkept & _).
  exact (Hkept _ Hraises).
Defined.


Lemma batch_keeps_existing_responses_witness :
  caller_dict st0 None = Some ∅
  ∧ responses (batch_completions env "facebook/opt-125m" batch_messages None ∅ st0).2
      !! 0%nat = Some ModelResponse_new
  ∧ responses st0 !! 1%nat = None
  ∧ is_Some (responses (batch_completions env "facebook/opt-125m" batch_messages
                          None ∅ st0).2 !! 1%nat).
Proof.
  assert (batch_completions env "facebook/opt-125m" batch_messages None ∅ st0
          = (Returns [1; 2]%nat,
             (batch_completions env "facebook/opt-125m" batch_messages None ∅ st0).2))
    as Hrun by (vm_compute; reflexivity).
  split; [reflexivity|].
  destruct (batch_keeps_existing_responses env "facebook/opt-125m" batch_messages
              None ∅ ∅ st0 _ _ eq_refl Hrun) as [Hold Hnew].
  split; [apply Hold; reflexivity|].
  apply (Hnew [1; 2]%nat 1%nat eq_refl). apply list_elem_of_here.
Defined.

Lemma collect_responses_all_or_nothing_witness :
  (∃ rs, (collect_responses env "facebook/opt-125m" [out 1 "a"; out 2 "b"] st0).1
         = Returns rs
         ∧ length rs = 2%nat)
  ∧ (collect_responses env "facebook/opt-125m" [out 1 "a"; no_candidate] st0).1
    = Raises IndexError.
Proof.
  split.
  - destruct (collect_responses_all_or_nothing env "facebook/opt-125m"
                [out 1 "a"; out 2 "b"] st0) as (Hall & _).
    apply Hall. repeat constructor; intros Hne; discriminate Hne.
  - destruct (collect_responses_all_or_nothing env "facebook/opt-125m"
                [out 1 "a"; no_candidate] st0) as (_ & Hex & _).
    apply Hex. apply Exists_cons_tl, Exists_cons_hd. reflexivity.
Defined.


Lemma strict_rejects_stream (w : nat) :
  (SamplingParams env_strict (generation_options options_stream) w).1
  = Some (Exc "TypeError" "unexpected keyword argument 'stream'").
Proof.
  assert (generation_options options_stream !! "stream" = Some (VBool true)) as Hs
    by (vm_compute; reflexivity).
  unfold env_strict, tick. cbn [SamplingParams fst]. rewrite Hs. reflexivity.
Qed.

Lemma rejected_options_stop_the_call_witness :
  caller_dict st0 (Some 1%nat) = Some options_stream
  ∧ (∀ w, is_Some (SamplingParams env_strict (generation_options options_stream) w).1)
  ∧ (∃ x, (completion env_strict "facebook/opt-125m" messages 0%nat print_verbose
             logging_obj (Some 1%nat) ∅ st0).1 = Raises x
          ∧ ((∃ m, x = VLLMError 0 m)
             ∨ ∃ w, (SamplingParams env_strict (generation_options options_stream) w).1
                    = Some x))
  ∧ responses (batch_completions env_strict "facebook/opt-125m" batch_messages
                 (Some 1%nat) ∅ st0).2 = responses st0.
Proof.
  assert (∀ w, is_Some (SamplingParams env_strict (generation_options options_stream) w).1)
    as Hrejects.
  { intros w. rewrite strict_rejects_stream. by eexists. }
  split; [reflexivity|]. split; [exact Hrejects|].
  destruct (rejected_options_stop_the_call env_strict "facebook/opt-125m" (Some 1%nat)
              options_stream st0 eq_refl Hrejects) as [Hc Hb].
  split.
  - destruct (Hc messages 0%nat print_verbose logging_obj ∅ _ _ (surjective_pairing _))
      as (Hraises & _).
    exact Hraises.
  - destruct (Hb batch_messages ∅ _ _ (surjective_pairing _)) as (_ & Hkept & _).
    exact Hkept.
Defined.

Lemma template_without_entry_stops_completion_witness :
  caller_dict st0 (Some 0%nat) = Some options
  ∧ registered_incomplete !! "facebook/opt-125m" = Some template_no_roles
  ∧ template_no_roles !! "roles" = None
  ∧ (completion env "facebook/opt-125m" messages 0%nat print_verbose logging_obj
       (Some 0%nat) registered_incomplete st0).1 = Raises (KeyError "roles")
  ∧ responses (completion env "facebook/opt-125m" messages 0%nat print_verbose
                 logging_obj (Some 0%nat) registered_incomplete st0).2
    = responses st0.
Proof.
  assert (registered_incomplete !! "facebook/opt-125m" = Some template_no_roles)
    as Hreg by (vm_compute; reflexivity).
  assert (template_no_roles !! "roles" = None) as Hmiss by (vm_compute; reflexivity).
  split; [reflexivity|]. split; [exact Hreg|]. split; [exact Hmiss|].
  split; [vm_compute; reflexivity|].
  destruct (template_without_entry_stops_completion env "facebook/opt-125m" messages
              0%nat print_verbose logging_obj (Some 0%nat) registered_incomplete
              options template_no_roles "roles" st0 _ _ eq_refl Hreg
              (list_elem_of_here _ _) Hmiss (surjective_pairing _))
    as (_ & Hkept & _).
  exact Hkept.
Defined.

Lemma post_call_reports_engine_output_witness :
  caller_dict st0 (Some 0%nat) = Some options
  ∧ ∃ evs,
      trace (completion env "facebook/opt-125m" messages 0%nat print_verbose
               logging_obj (Some 0%nat) ∅ st0).2 = trace st0 ++ evs
      ∧ (∀ i key r sp, EvPostCall i key r sp ∈ evs →
           key = EmptyString
           ∧ sp = SamplingParamsOf (generation_options options)
           ∧ stream_requested (generation_options options) = false
           ∧ EvPreCall i key sp ∈ evs
           ∧ ∃ e w w', generate env e (OnePrompt i) sp w = (Returns r, w'))
      ∧ (∀ r, EvPrintVerbose r ∈ evs → ∃ i key sp, EvPostCall i key r sp ∈ evs).
Proof.
  split; [reflexivity|].
  exact (post_call_reports_engine_output env "facebook/opt-125m" messages 0%nat
           print_verbose logging_obj (Some 0%nat) ∅ options st0 _ _ eq_refl
           (surjective_pairing _)).
Defined.

Lemma at_most_one_engine_call_witness :
  caller_dict st0 (Some 0%nat) = Some options
  ∧ (∃ evs,
       trace (completion env "facebook/opt-125m" messages 0%nat print_verbose
                logging_obj (Some 0%nat) ∅ st0).2 = trace st0 ++ evs
       ∧ (count_events is_generate_event evs ≤ 1)%nat
       ∧ (count_events is_LLM_event evs ≤ 1)%nat
       ∧ (count_events is_log_event evs ≤ 2)%nat)
  ∧ (∃ evs,
       trace (batch_completions env "facebook/opt-125m" batch_messages
                (Some 0%nat) ∅ st0).2 = trace st0 ++ evs
       ∧ (count_events is_generate_event evs ≤ 1)%nat
       ∧ (count_events is_LLM_event evs ≤ 1)%nat).
Proof.
  split; [reflexivity|].
  destruct (at_most_one_engine_call env "facebook/opt-125m" (Some 0%nat) ∅ options st0
              eq_refl) as [Hc Hb].
  split.
  - exact (Hc messages 0%nat print_verbose logging_obj _ _ (surjective_pairing _)).
  - exact (Hb batch_messages _ _ (surjective_pairing _)).
Defined.

Lemma prompt_path_follows_registration_witness :
  caller_dict st0 (Some 0%nat) = Some options
  ∧ registered !! "facebook/opt-125m" = Some template
  ∧ ∃ evs,
      trace (completion env "facebook/opt-125m" messages 0%nat print_verbose
               logging_obj (Some 0%nat) registered st0).2 = trace st0 ++ evs
      ∧ (count_events is_prompt_event evs ≤ 1)%nat
      ∧ ∀ ev, ev ∈ evs → is_prompt_event ev = true →
          ev = EvCustomPrompt (VDict []) (VStr "<s>") (VStr "</s>") messages.
Proof.
  assert (registered !! "facebook/opt-125m" = Some template) as Hreg
    by (vm_compute; reflexivity).
  assert (template !! "roles" = Some (VDict [])) as Hroles by (vm_compute; reflexivity).
  assert (template !! "initial_prompt_value" = Some (VStr "<s>")) as Hini
    by (vm_compute; reflexivity).
  assert (template !! "final_prompt_value" = Some (VStr "</s>")) as Hfin
    by (vm_compute; reflexivity).
  split; [reflexivity|]. split; [exact Hreg|].
  destruct (prompt_path_follows_registration env "facebook/opt-125m" messages 0%nat
              print_verbose logging_obj (Some 0%nat) registered options st0 _ _
              eq_refl (surjective_pairing _)) as (evs & Htr & Hcount & Hpath).
  exists evs. split; [exact Htr|]. split; [exact Hcount|].
  intros ev Hin Hprompt. specialize (Hpath ev Hin Hprompt).
  rewrite Hreg in Hpath. destruct Hpath as (a & b & c & Ha & Hb & Hc & ->).
  rewrite Hroles in Ha. rewrite Hini in Hb. rewrite Hfin in Hc.
  injection Ha as <-. injection Hb as <-. injection Hc as <-. reflexivity.
Defined.

Lemma batch_engine_gets_every_prompt_witness :
  caller_dict st0 (Some 0%nat) = Some options
  ∧ ∃ evs,
      trace (batch_completions env "facebook/opt-125m" batch_messages
               (Some 0%nat) ∅ st0).2 = trace st0 ++ evs
      ∧ ∀ e ps sp, EvGenerate e ps sp ∈ evs →
          sp = SamplingParamsOf (generation_options options)
          ∧ ∃ prompts, ps = ManyPrompts prompts
                       ∧ length prompts = length batch_messages
                       ∧ Forall2 (rendered env "facebook/opt-125m" ∅)
                           batch_messages prompts.
Proof.
  split; [reflexivity|].
  exact (batch_engine_gets_every_prompt env "facebook/opt-125m" batch_messages
           (Some 0%nat) ∅ options st0 _ _ eq_refl (surjective_pairing _)).
Defined.

Lemma sample_cooperative_batch : cooperative_batch env "facebook/opt-125m" ∅.
Proof.
  unfold cooperative_batch. simpl.
  split; [reflexivity|].
  split; [intros m p w; by exists (EngineObj w)|].
  split; [reflexivity|].
  split; [intros a b c ms w; by exists "custom prompt"|].
  split; [intros m ms w; by exists ("prompt for " +:+ m)|].
  split.
  { intros e ps sp w. eexists. split; [reflexivity|].
    apply Forall_forall. intros o Hin.
    apply elem_of_lookup_imap_1 in Hin as (i & p & -> & _).
    intros Hne. discriminate Hne. }
  intros det Hdet. by rewrite lookup_empty in Hdet.
Qed.

Lemma batch_completions_cooperative_witness :
  cooperative_batch env "facebook/opt-125m" ∅
  ∧ caller_dict st0 (Some 0%nat) = Some options
  ∧ ∃ rs, (batch_completions env "facebook/opt-125m" batch_messages
             (Some 0%nat) ∅ st0).1 = Returns rs.
Proof.
  split; [exact sample_cooperative_batch|]. split; [reflexivity|].
  exact (batch_completions_cooperative env "facebook/opt-125m" batch_messages
           (Some 0%nat) ∅ options st0 sample_cooperative_batch eq_refl).
Defined.

Lemma returned_options_are_stable_witness :
  caller_dict st0 (Some 0%nat) = Some options
  ∧ (validate_environment env "facebook/opt-125m" (Some 0%nat) st0).1
    = Returns (Some (EngineObj 1), 6%nat)
  ∧ (validate_environment env "meta-llama/Llama-2-7b" (Some 6%nat)
       (validate_environment env "facebook/opt-125m" (Some 0%nat) st0).2).1
    = Returns (Some (EngineObj 1), 10%nat)
  ∧ dicts (validate_environment env "meta-llama/Llama-2-7b" (Some 6%nat)
             (validate_environment env "facebook/opt-125m" (Some 0%nat) st0).2).2
      !! 10%nat = Some (generation_options options)
  ∧ dicts (validate_environment env "meta-llama/Llama-2-7b" (Some 6%nat)
             (validate_environment env "facebook/opt-125m" (Some 0%nat) st0).2).2
      !! 6%nat = Some (generation_options options)
  ∧ construction_options (generation_options options) = default_params.
Proof.
  assert (validate_environment env "facebook/opt-125m" (Some 0%nat) st0
          = (Returns (Some (EngineObj 1), 6%nat),
             (validate_environment env "facebook/opt-125m" (Some 0%nat) st0).2))
    as Hrun1 by (vm_compute; reflexivity).
  assert (validate_environment env "meta-llama/Llama-2-7b" (Some 6%nat)
            (validate_environment env "facebook/opt-125m" (Some 0%nat) st0).2
          = (Returns (Some (EngineObj 1), 10%nat),
             (validate_environment env "meta-llama/Llama-2-7b" (Some 6%nat)
                (validate_environment env "facebook/opt-125m" (Some 0%nat) st0).2).2))
    as Hrun2 by (vm_compute; reflexivity).
  split; [reflexivity|].
  split; [vm_compute; reflexivity|]. split; [vm_compute; reflexivity|].
  destruct (returned_options_are_stable env "facebook/opt-125m" "meta-llama/Llama-2-7b"
              (Some 0%nat) options st0 _ _ _ _ _ _ eq_refl Hrun1 Hrun2)
    as (_ & Hnew & Hold & _ & _ & Hnone).
  split; [exact Hnew|]. split; [exact Hold | exact Hnone].
Defined.

End MoreWitness.
